(** * OllamaMCP: a shallow embedding of the orchestration code

    The development follows the layout of the repository:

    - [Py]       the fragment of the Python run time the sources rely on
                 (exceptions and [except Exception], [str]/[repr]/[int],
                 the [+] and [-] operators, keyword-argument binding);
    - [ToolUse]  [ollama_tool_use.py]: [OllamaToolManager] with its
                 arithmetic helpers and [process_prompt];
    - [Mcp]      [ollama_mcp.py]: [create_agents] over the JSON
                 configuration;
    - [Chatbot]  [ollama_mcp_chatbot.py]: [BaseChatbot] and
                 [OllamaMCPChatbot] ([initialize], [chat], [cleanup],
                 [clear_history]).

    Calls that leave the repository (the model backend, the MCP client
    library, [yfinance], [requests]) are section variables: every theorem
    holds for all behaviours of those collaborators.

    Strings are sequences of ASCII characters; floating-point numbers and
    nested containers are outside the modelled universe of values. *)

From Stdlib Require Import ZArith Ascii String List Lia Bool.
From stdpp Require Import base option list strings pretty gmap.

(* ===================================================================== *)
(** * The Python fragment *)
(* ===================================================================== *)

Module Py.

(** ** Exceptions *)

(** The classes that occur in the sources, plus two open-ended ones:
    [ForeignError] for any other subclass of [Exception] raised by a
    library, [BaseOnly] for classes deriving from [BaseException] only
    ([KeyboardInterrupt], [SystemExit], [asyncio.CancelledError]). *)
Inductive exn_class : Type :=
| ValueError
| TypeError
| KeyError
| AttributeError
| NotImplementedError
| PlainException
| RequestException
| ForeignError (name : string)
| BaseOnly (name : string).

(** An exception object: its class and the text [str(e)] yields. *)
Record exn : Type := Exn { exn_cls : exn_class; exn_str : string }.

(** [isinstance(e, Exception)]: what a clause [except Exception] catches. *)
Definition is_Exception (e : exn) : bool :=
  match exn_cls e with
  | BaseOnly _ => false
  | _ => true
  end.

(** [isinstance(e, requests.exceptions.RequestException)]. *)
Definition is_RequestException (e : exn) : bool :=
  match exn_cls e with
  | RequestException => true
  | _ => false
  end.

(** The outcome of evaluating an expression: a value or a raised exception. *)
Inductive res (A : Type) : Type :=
| Ok (a : A)
| Raise (e : exn).
Arguments Ok {A} a.
Arguments Raise {A} e.

Definition res_bind {A B : Type} (f : A -> res B) (m : res A) : res B :=
  match m with
  | Ok a => f a
  | Raise e => Raise e
  end.

#[global] Instance res_mbind : MBind res := @res_bind.
#[global] Instance res_mret : MRet res := @Ok.

(** [try: body except Exception as e: handler(e)]. *)
Definition try_except {A : Type} (body : res A) (handler : exn -> res A) : res A :=
  match body with
  | Ok a => Ok a
  | Raise e => if is_Exception e then handler e else Raise e
  end.

Definition returns {A : Type} (m : res A) : Prop := exists a, m = Ok a.

(** ** Values *)

Inductive value : Type :=
| VNone
| VBool (b : bool)
| VInt (n : Z)
| VStr (s : string)
| VDict (d : list (string * string)).

#[global] Instance value_eq_dec : EqDecision value.
Proof. solve_decision. Defined.

(** [type(v).__name__] *)
Definition type_name (v : value) : string :=
  match v with
  | VNone => "NoneType"
  | VBool _ => "bool"
  | VInt _ => "int"
  | VStr _ => "str"
  | VDict _ => "dict"
  end.

Definition isinstance_str (v : value) : bool :=
  match v with
  | VStr _ => true
  | _ => false
  end.

(** [bool(v)] *)
Definition truthy (v : value) : bool :=
  match v with
  | VNone => false
  | VBool b => b
  | VInt n => negb (n =? 0)%Z
  | VStr s => negb (String.eqb s "")
  | VDict d => negb (Nat.eqb (length d) 0)
  end.

(** ** [repr] and [str] *)

Definition dq : ascii := "034"%char.
Definition sq : ascii := "'"%char.
Definition bs : ascii := "\"%char.

Definition hex_digit (n : nat) : ascii :=
  ascii_of_nat (if (n <? 10)%nat then 48 + n else 87 + n).

Definition hex_escape (c : ascii) : string :=
  let n := nat_of_ascii c in
  String bs (String "x" (String (hex_digit (n / 16)) (String (hex_digit (n mod 16)) ""))).

Definition escape_char (q c : ascii) : string :=
  if (c =? q)%char || (c =? bs)%char then String bs (String c "")
  else if (c =? "009")%char then String bs "t"
  else if (c =? "010")%char then String bs "n"
  else if (c =? "013")%char then String bs "r"
  else
    let n := nat_of_ascii c in
    if (n <? 32)%nat || (126 <? n)%nat then hex_escape c else String c "".

Fixpoint contains_char (q : ascii) (s : string) : bool :=
  match s with
  | EmptyString => false
  | String c s' => (c =? q)%char || contains_char q s'
  end.

Fixpoint escape_all (q : ascii) (s : string) : string :=
  match s with
  | EmptyString => ""
  | String c s' => escape_char q c +:+ escape_all q s'
  end.

(** [repr(s)] for a string: single quotes unless the text has a single
    quote and no double quote. *)
Definition repr_str (s : string) : string :=
  let q := if contains_char sq s && negb (contains_char dq s) then dq else sq in
  String q (escape_all q s +:+ String q "").

Fixpoint join (sep : string) (l : list string) : string :=
  match l with
  | [] => ""
  | [x] => x
  | x :: rest => x +:+ sep +:+ join sep rest
  end.

Definition py_repr (v : value) : string :=
  match v with
  | VNone => "None"
  | VBool true => "True"
  | VBool false => "False"
  | VInt n => pretty n
  | VStr s => repr_str s
  | VDict d =>
      "{" +:+ join ", " (map (fun kv => repr_str (fst kv) +:+ ": " +:+ repr_str (snd kv)) d) +:+ "}"
  end.

Definition py_str (v : value) : string :=
  match v with
  | VStr s => s
  | _ => py_repr v
  end.

(** Keyword arguments and other small dictionaries, in insertion order. *)
Definition kwargs : Type := list (string * value).

Definition repr_dict (d : kwargs) : string :=
  "{" +:+ join ", " (map (fun kv => repr_str (fst kv) +:+ ": " +:+ py_repr (snd kv)) d) +:+ "}".

(** ** [int(s)] on a string, base ten *)

Definition is_space (c : ascii) : bool :=
  let n := nat_of_ascii c in
  ((9 <=? n)%nat && (n <=? 13)%nat) || ((28 <=? n)%nat && (n <=? 32)%nat).

Definition is_digit (c : ascii) : bool :=
  let n := nat_of_ascii c in (48 <=? n)%nat && (n <=? 57)%nat.

Definition digit_value (c : ascii) : Z := Z.of_nat (nat_of_ascii c) - 48.

Fixpoint lstrip (s : string) : string :=
  match s with
  | EmptyString => ""
  | String c s' => if is_space c then lstrip s' else s
  end.

Fixpoint rstrip (s : string) : string :=
  match s with
  | EmptyString => ""
  | String c s' =>
      match rstrip s' with
      | EmptyString => if is_space c then "" else String c ""
      | r => String c r
      end
  end.

Definition strip (s : string) : string := rstrip (lstrip s).

(** The digit part of a literal: decimal digits, single underscores
    allowed between two digits only.  [after_digit] tells whether the
    previous character was a digit. *)
Fixpoint parse_digits (acc : Z) (after_digit : bool) (s : string) : option Z :=
  match s with
  | EmptyString => if after_digit then Some acc else None
  | String c s' =>
      if (c =? "_")%char then
        if after_digit then parse_digits acc false s' else None
      else if is_digit c then parse_digits (10 * acc + digit_value c) true s'
      else None
  end.

Definition int_literal (s : string) : option Z :=
  match strip s with
  | String "+" r => parse_digits 0 false r
  | String "-" r => Z.opp <$> parse_digits 0 false r
  | t => parse_digits 0 false t
  end.

(** [int(s)]: raises [ValueError] on anything that is not a literal.  The
    interpreter's configurable limit on the length of a literal is left
    out. *)
Definition py_int (s : string) : res value :=
  match int_literal s with
  | Some n => Ok (VInt n)
  | None => Raise (Exn ValueError ("invalid literal for int() with base 10: " +:+ repr_str s))
  end.

(** ** The binary operators [+] and [-] *)

Definition as_int (v : value) : option Z :=
  match v with
  | VInt n => Some n
  | VBool b => Some (if b then 1 else 0)%Z
  | _ => None
  end.

Definition unsupported (op : string) (a b : value) : exn :=
  Exn TypeError ("unsupported operand type(s) for " +:+ op +:+ ": '" +:+ type_name a
                 +:+ "' and '" +:+ type_name b +:+ "'").

Definition py_add (a b : value) : res value :=
  match as_int a, as_int b with
  | Some x, Some y => Ok (VInt (x + y))
  | _, _ =>
      match a, b with
      | VStr s, VStr t => Ok (VStr (s +:+ t))
      | VStr _, _ =>
          Raise (Exn TypeError ("can only concatenate str (not " +:+ String dq (type_name b)
                                +:+ String dq ") to str"))
      | _, _ => Raise (unsupported "+" a b)
      end
  end.

Definition py_sub (a b : value) : res value :=
  match as_int a, as_int b with
  | Some x, Some y => Ok (VInt (x - y))
  | _, _ => Raise (unsupported "-" a b)
  end.

(** [x in [s1, ..., sn]] for a list of string constants. *)
Definition in_strs (x : value) (l : list string) : bool :=
  match x with
  | VStr s => existsb (String.eqb s) l
  | _ => false
  end.

(** ** Keyword-argument binding

    A bound method called with an unpacked dictionary [d] of keywords;
    [params] are its positional-or-keyword parameters (none has a
    default) and [var_kw] tells whether the signature ends in a
    catch-all keyword parameter.  Yields the parameter values in order and the
    remaining keywords. *)

Fixpoint lookup_kw (k : string) (d : kwargs) : option value :=
  match d with
  | [] => None
  | (k', v) :: rest => if String.eqb k k' then Some v else lookup_kw k rest
  end.

Definition has_key (k : string) (d : kwargs) : bool :=
  match lookup_kw k d with
  | Some _ => true
  | None => false
  end.

Definition quote (s : string) : string := String sq (s +:+ String sq "").

Definition name_list (l : list string) : string :=
  match l with
  | [] => ""
  | [x] => quote x
  | [x; y] => quote x +:+ " and " +:+ quote y
  | _ => join ", " (map quote (removelast l)) +:+ ", and " +:+ quote (List.last l "")
  end.

Definition missing_args (qualname : string) (l : list string) : exn :=
  Exn TypeError (qualname +:+ "() missing " +:+ pretty (length l) +:+ " required positional argument"
                 +:+ (if Nat.eqb (length l) 1 then "" else "s") +:+ ": " +:+ name_list l).

Definition unexpected_kw (qualname k : string) : exn :=
  Exn TypeError (qualname +:+ "() got an unexpected keyword argument " +:+ quote k).

Definition bind_kwargs (qualname : string) (params : list string) (var_kw : bool)
    (d : kwargs) : res (list value * kwargs) :=
  let extra := filter (fun kv => negb (existsb (String.eqb (fst kv)) params)) d in
  match extra with
  | (k, _) :: _ =>
      if var_kw then
        match filter (fun p => negb (has_key p d)) params with
        | [] => Ok (omap (fun p => lookup_kw p d) params, extra)
        | miss => Raise (missing_args qualname miss)
        end
      else Raise (unexpected_kw qualname k)
  | [] =>
      match filter (fun p => negb (has_key p d)) params with
      | [] => Ok (omap (fun p => lookup_kw p d) params, [])
      | miss => Raise (missing_args qualname miss)
      end
  end.

(** ** Statements with effects

    A computation over a store [S]: it ends with a value or a raised
    exception, and in both cases the store keeps the updates made so far. *)

Definition st (S A : Type) : Type := S -> res A * S.

Definition st_ret {S A : Type} (a : A) : st S A := fun s => (Ok a, s).

Definition st_bind {S A B : Type} (f : A -> st S B) (m : st S A) : st S B :=
  fun s =>
    match m s with
    | (Ok a, s') => f a s'
    | (Raise e, s') => (Raise e, s')
    end.

Definition st_raise {S A : Type} (e : exn) : st S A := fun s => (Raise e, s).

Definition st_lift {S A : Type} (r : res A) : st S A := fun s => (r, s).

Definition st_get {S : Type} : st S S := fun s => (Ok s, s).

Definition st_modify {S : Type} (f : S -> S) : st S unit := fun s => (Ok tt, f s).

(** [try: body except Exception as e: handler(e)] *)
Definition st_try {S A : Type} (body : st S A) (handler : exn -> st S A) : st S A :=
  fun s =>
    match body s with
    | (Ok a, s') => (Ok a, s')
    | (Raise e, s') => if is_Exception e then handler e s' else (Raise e, s')
    end.

#[global] Instance st_mbind {S : Type} : MBind (st S) := @st_bind S.
#[global] Instance st_mret {S : Type} : MRet (st S) := @st_ret S.

End Py.

(* ===================================================================== *)
(** * ollama_tool_use.py *)
(* ===================================================================== *)

Module ToolUse.
Import Py.

(** ** Data exchanged with the model backend *)

Record chat_message : Type := ChatMessage { role : string; content : string }.

(** One entry of [response.message.tool_calls]. *)
Record tool_call : Type := ToolCall { fn_name : string; fn_arguments : kwargs }.

(** [response.message]: [tool_calls] is [None] or a list. *)
Record chat_response : Type :=
  ChatResponse { message_content : string; tool_calls : option (list tool_call) }.

Record property : Type :=
  Property { p_name : string; p_type : string;
             p_enum : option (list string); p_description : option string }.

(** A tool definition ([type] is always [function], the parameters'
    [type] always [object]). *)
Record tool_def : Type :=
  ToolDef { t_name : string; t_description : string;
            t_required : list string; t_properties : list property }.

Definition _create_stock_price_tool : tool_def :=
  ToolDef "get_stock_price" "Get the current stock price for any symbol" ["symbol"]
    [Property "symbol" "string" None (Some "The stock symbol (e.g., AAPL, GOOGL)")].

Definition _create_arithmetic_tools : tool_def :=
  ToolDef "arithmetic" "Perform basic arithmetic operations" ["operation"; "a"; "b"]
    [Property "operation" "string" (Some ["add"; "+"; "subtract"; "-"]) None;
     Property "a" "integer" None None;
     Property "b" "integer" None None].

Definition _create_request_tool : tool_def :=
  ToolDef "request" "Make a web request to any URL" ["method"; "url"]
    [Property "method" "string" (Some ["GET"; "POST"; "PUT"; "DELETE"]) None;
     Property "url" "string" None (Some "The URL to request")].

Definition tools : list tool_def :=
  [_create_stock_price_tool; _create_arithmetic_tools; _create_request_tool].

(** The methods registered in [available_functions]. *)
Inductive method : Type :=
| m_get_stock_price
| m_request_with_headers
| m_add_numbers
| m_subtract_numbers
| m_arithmetic.

Definition available_functions : gmap string method :=
  <["arithmetic" := m_arithmetic]>
  (<["subtract_numbers" := m_subtract_numbers]>
  (<["add_numbers" := m_add_numbers]>
  (<["request" := m_request_with_headers]>
  (<["get_stock_price" := m_get_stock_price]> ∅)))).

(** What a run leaves behind, in order: printed lines, calls to the
    model backend, calls of registered methods. *)
Inductive event : Type :=
| Printed (line : string)
| BackendCall (model : string) (messages : list chat_message)
| Invoked (m : method) (args : kwargs).

Definition is_backend_call (ev : event) : bool :=
  match ev with
  | BackendCall _ _ => true
  | _ => false
  end.

Definition is_invocation (ev : event) : bool :=
  match ev with
  | Invoked _ _ => true
  | _ => false
  end.

Definition printed_lines (tr : list event) : list string :=
  omap (fun ev => match ev with Printed l => Some l | _ => None end) tr.

(** ** The arithmetic helpers *)

Definition add_numbers (a b : value) : res value := py_add a b.

Definition subtract_numbers (a b : value) : res value := py_sub a b.

Definition arithmetic (operation a b : value) : res value :=
  try_except
    (a ← (if isinstance_str a then py_int (py_str a) else Ok a);
     b ← (if isinstance_str b then py_int (py_str b) else Ok b);
     if in_strs operation ["add"; "+"] then add_numbers a b
     else if in_strs operation ["subtract"; "-"] then subtract_numbers a b
     else Ok (VStr ("Unknown operation: " +:+ py_str operation)))
    (fun e => Ok (VStr ("Error in arithmetic operation: " +:+ exn_str e))).

(** ** Methods that call out of the repository *)

(** What [requests.request] hands back: the status code and what
    [raise_for_status] does with it. *)
Record response : Type :=
  Response { status_code : Z; raise_for_status : res unit }.

Section Manager.

(** [yf.Ticker(symbol).info]: the quote dictionary, or the error of the
    lookup. *)
Variable ticker_info : value -> res kwargs.
(** [yf.Ticker(symbol).fast_info.last_price]; [None] when the attribute
    is missing. *)
Variable ticker_last_price : value -> res (option value).
(** [requests.request(method, url, **kwargs)] *)
Variable requests_request : value -> value -> kwargs -> res response.
(** [ollama.chat(model, messages=..., tools=...)] *)
Variable ollama_chat : string -> list chat_message -> list tool_def -> res chat_response.

Definition price_attrs : list string := ["regularMarketPrice"; "currentPrice"; "price"].

Fixpoint first_price (info : kwargs) (attrs : list string) : option value :=
  match attrs with
  | [] => None
  | attr :: rest =>
      match lookup_kw attr info with
      | Some v => if decide (v = VNone) then first_price info rest else Some v
      | None => first_price info rest
      end
  end.

Definition get_stock_price (symbol : value) : res value :=
  info ← ticker_info symbol;
  match first_price info price_attrs with
  | Some price => Ok price
  | None =>
      last ← ticker_last_price symbol;
      match last with
      | Some price => if decide (price = VNone)
                      then Raise (Exn PlainException "Could not find valid price data")
                      else Ok price
      | None => Raise (Exn PlainException "Could not find valid price data")
      end
  end.

Definition default_user_agent : string :=
  "Mozilla/5.0 (Windows NT 10.0; Win64; x64) AppleWebKit/537.36 (KHTML, like Gecko) Chrome/91.0.4472.124 Safari/537.36".

Definition request_with_headers (method url : value) (kw : kwargs) : res value :=
  let kw := if has_key "headers" kw then kw
            else kw ++ [("headers", VDict [("User-Agent", default_user_agent)])] in
  let kw := if has_key "timeout" kw then kw else kw ++ [("timeout", VInt 10)] in
  match (resp ← requests_request method url kw;
         _ ← raise_for_status resp;
         Ok (VStr ("Successfully retrieved content from " +:+ py_str url
                   +:+ " (status code: " +:+ pretty (status_code resp) +:+ ")"))) with
  | Ok v => Ok v
  | Raise e => if is_RequestException e
               then Ok (VStr ("Error making request: " +:+ exn_str e))
               else Raise e
  end.

(** Calling a registered method with the unpacked [arguments] of a tool
    call. *)
Definition call (m : method) (args : kwargs) : res value :=
  match m with
  | m_get_stock_price =>
      bound ← bind_kwargs "OllamaToolManager.get_stock_price" ["symbol"] false args;
      match fst bound with
      | [symbol] => get_stock_price symbol
      | _ => Raise (Exn TypeError "OllamaToolManager.get_stock_price()")
      end
  | m_request_with_headers =>
      bound ← bind_kwargs "OllamaToolManager.request_with_headers" ["method"; "url"] true args;
      match fst bound with
      | [method; url] => request_with_headers method url (snd bound)
      | _ => Raise (Exn TypeError "OllamaToolManager.request_with_headers()")
      end
  | m_add_numbers =>
      bound ← bind_kwargs "OllamaToolManager.add_numbers" ["a"; "b"] false args;
      match fst bound with
      | [a; b] => add_numbers a b
      | _ => Raise (Exn TypeError "OllamaToolManager.add_numbers()")
      end
  | m_subtract_numbers =>
      bound ← bind_kwargs "OllamaToolManager.subtract_numbers" ["a"; "b"] false args;
      match fst bound with
      | [a; b] => subtract_numbers a b
      | _ => Raise (Exn TypeError "OllamaToolManager.subtract_numbers()")
      end
  | m_arithmetic =>
      bound ← bind_kwargs "OllamaToolManager.arithmetic" ["operation"; "a"; "b"] false args;
      match fst bound with
      | [operation; a; b] => arithmetic operation a b
      | _ => Raise (Exn TypeError "OllamaToolManager.arithmetic()")
      end
  end.

(** ** [process_prompt] *)

Definition print (line : string) : st (list event) unit :=
  st_modify (fun tr => tr ++ [Printed line]).

Definition record (ev : event) : st (list event) unit :=
  st_modify (fun tr => tr ++ [ev]).

(** The loop over [response.message.tool_calls]: [Some result] when a
    [return result] was reached, [None] when the loop ran to its end. *)
Fixpoint tool_loop (calls : list tool_call) : st (list event) (option value) :=
  match calls with
  | [] => mret None
  | tool :: rest =>
      match available_functions !! fn_name tool with
      | Some function_to_call =>
          _ ← print ("Calling function: " +:+ fn_name tool);
          _ ← print ("Arguments: " +:+ repr_dict (fn_arguments tool));
          _ ← record (Invoked function_to_call (fn_arguments tool));
          result ← st_lift (call function_to_call (fn_arguments tool));
          _ ← print ("Function output: " +:+ py_str result);
          mret (Some result)
      | None =>
          _ ← print ("Function " +:+ fn_name tool +:+ " not found");
          tool_loop rest
      end
  end.

Definition process_prompt (prompt model : string) : st (list event) value :=
  _ ← print ("Prompt: " +:+ prompt);
  let messages := [ChatMessage "user" prompt] in
  _ ← record (BackendCall model messages);
  response ← st_lift (ollama_chat model messages tools);
  match tool_calls response with
  | Some (tool :: rest) =>
      found ← tool_loop (tool :: rest);
      mret (default VNone found)
  | _ => mret VNone
  end.

End Manager.

End ToolUse.

(* ===================================================================== *)
(** * ollama_mcp.py *)
(* ===================================================================== *)

Module Mcp.
Import Py.

(** What [json.load] produces (numbers with a fractional part left out). *)
#[warnings="-register-all"]
Inductive json : Type :=
| JNull
| JBool (b : bool)
| JInt (n : Z)
| JStr (s : string)
| JList (items : list json)
| JObj (fields : list (string * json)).

Definition json_type_name (j : json) : string :=
  match j with
  | JNull => "NoneType"
  | JBool _ => "bool"
  | JInt _ => "int"
  | JStr _ => "str"
  | JList _ => "list"
  | JObj _ => "dict"
  end.

(** [bool(j)] *)
Definition json_truthy (j : json) : bool :=
  match j with
  | JNull => false
  | JBool b => b
  | JInt n => negb (n =? 0)%Z
  | JStr s => negb (String.eqb s "")
  | JList l => negb (Nat.eqb (length l) 0)
  | JObj f => negb (Nat.eqb (length f) 0)
  end.

(** Lookup in the items of a dictionary (its keys are distinct). *)
Fixpoint lookup_field (k : string) (fields : list (string * json)) : option json :=
  match fields with
  | [] => None
  | (k', v) :: rest => if String.eqb k k' then Some v else lookup_field k rest
  end.

Definition no_attribute (j : json) (attr : string) : exn :=
  Exn AttributeError (quote (json_type_name j) +:+ " object has no attribute " +:+ quote attr).

(** [j[k]] for a string key [k] *)
Definition subscript (j : json) (k : string) : res json :=
  match j with
  | JObj fields =>
      match lookup_field k fields with
      | Some v => Ok v
      | None => Raise (Exn KeyError (repr_str k))
      end
  | JList _ => Raise (Exn TypeError "list indices must be integers or slices, not str")
  | JStr _ => Raise (Exn TypeError "string indices must be integers, not 'str'")
  | _ => Raise (Exn TypeError (quote (json_type_name j) +:+ " object is not subscriptable"))
  end.

(** [j.get(k, default)] *)
Definition get (j : json) (k : string) (fallback : json) : res json :=
  match j with
  | JObj fields => Ok (default fallback (lookup_field k fields))
  | _ => Raise (no_attribute j "get")
  end.

(** [j.items()] *)
Definition items (j : json) : res (list (string * json)) :=
  match j with
  | JObj fields => Ok fields
  | _ => Raise (no_attribute j "items")
  end.

Fixpoint chars (s : string) : list json :=
  match s with
  | EmptyString => []
  | String c s' => JStr (String c "") :: chars s'
  end.

(** What [list.extend(j)] appends: the elements of an iterable. *)
Definition iterate (j : json) : res (list json) :=
  match j with
  | JList l => Ok l
  | JStr s => Ok (chars s)
  | JObj fields => Ok (map (fun kv => JStr (fst kv)) fields)
  | _ => Raise (Exn TypeError (quote (json_type_name j) +:+ " object is not iterable"))
  end.

(** The strings of a sequence handed to [str.join]; [i] is the index of
    the first element. *)
Fixpoint str_items (i : nat) (l : list json) : res (list string) :=
  match l with
  | [] => Ok []
  | JStr s :: rest => tl ← str_items (S i) rest; Ok (s :: tl)
  | j :: _ =>
      Raise (Exn TypeError ("sequence item " +:+ pretty i +:+ ": expected str instance, "
                            +:+ json_type_name j +:+ " found"))
  end.

Definition str_join (sep : string) (l : list json) : res string :=
  strs ← str_items 0 l; Ok (join sep strs).

Definition LLM : string := "ollama/llama3.2".

(** The objects of [praisonaiagents]; their constructors are taken as
    total and record their arguments. *)
Record MCP : Type := mk_MCP { mcp_command : string }.

Record Agent : Type :=
  mk_Agent { instructions : json; llm : string; agent_tools : MCP; agent_verbose : bool }.

(** One round of the loop over [config['mcpServers'].items()]. *)
Definition server_round (agents : gmap string Agent) (server_name : string)
    (server_config : json) : res (gmap string Agent) :=
  active ← get server_config "active" (JBool false);
  if negb (json_truthy active) then Ok agents
  else
    command ← subscript server_config "command";
    args ← subscript server_config "args";
    extension ← iterate args;
    mcp_command ← str_join " " (command :: extension);
    instructions ← subscript server_config "instructions";
    Ok (<[server_name := mk_Agent instructions LLM (mk_MCP mcp_command) true]> agents).

Fixpoint server_loop (servers : list (string * json)) (agents : gmap string Agent)
    : res (gmap string Agent) :=
  match servers with
  | [] => Ok agents
  | (server_name, server_config) :: rest =>
      agents ← server_round agents server_name server_config;
      server_loop rest agents
  end.

(** [create_agents] once [load_mcp_config] has produced [config]. *)
Definition create_agents_from (config : json) : res (gmap string Agent) :=
  servers ← subscript config "mcpServers";
  entries ← items servers;
  server_loop entries ∅.

Section Loader.

(** [load_mcp_config()]: the parsed file, or the error of reading it. *)
Variable load_mcp_config : res json.

Definition create_agents : res (gmap string Agent) :=
  config ← load_mcp_config;
  create_agents_from config.

End Loader.

End Mcp.

(* ===================================================================== *)
(** * ollama_mcp_chatbot.py *)
(* ===================================================================== *)

Module Chatbot.
Import Py.

(** ** Messages *)

Inductive message_kind : Type :=
| System
| Human
| AI
| Tool
| Other (cls : string).

#[global] Instance message_kind_eq_dec : EqDecision message_kind.
Proof. solve_decision. Defined.

(** A tool-invocation request carried by an assistant message. *)
Record tool_request : Type :=
  ToolRequest { request_name : string; request_args : kwargs; request_id : string }.

Record base_message : Type :=
  BaseMessage { kind : message_kind; content : string;
                tool_call_id : option string; tool_calls : list tool_request }.

Definition SystemMessage (content : string) : base_message := BaseMessage System content None [].
Definition HumanMessage (content : string) : base_message := BaseMessage Human content None [].
Definition AIMessage (content : string) : base_message := BaseMessage AI content None [].

(** ** Objects of the collaborating libraries *)

(** A float is carried around, never computed with. *)
Record py_float : Type := Float { literal : string }.

Record ChatOllama : Type :=
  mk_ChatOllama { co_model : string; co_base_url : string;
                  co_temperature : py_float; co_top_p : py_float }.

Record StdioServerParameters : Type :=
  mk_StdioServerParameters { sp_command : string; sp_args : list string }.

Record stdio_client : Type := mk_stdio_client { client_params : StdioServerParameters }.

Record stream : Type := Stream { stream_id : nat }.

Record ClientSession : Type :=
  mk_ClientSession { session_read : stream; session_write : stream }.

Record mcp_tool : Type :=
  McpTool { tool_name : string; tool_description : string; args_schema : option string }.

Record react_agent : Type := ReactAgent { agent_id : nat }.

(** ** The chatbot object *)

(** The fields of [OllamaMCPChatbot], those of [BaseChatbot] included.
    [memory] holds the messages of the conversation buffer; [mcp_client]
    is [None] as long as the attribute has not been assigned. *)
Record chatbot : Type :=
  Chatbot {
    model_name : string;
    system_message : option string;
    verbose : bool;
    memory : list base_message;
    base_url : string;
    temperature : py_float;
    top_p : py_float;
    chat_model : option ChatOllama;
    mcp_server_command : string;
    mcp_server_args : list string;
    mcp_server_params : StdioServerParameters;
    mcp_client : option stdio_client;
    mcp_session : option ClientSession;
    mcp_read : option stream;
    mcp_write : option stream;
    mcp_tools : option (list mcp_tool);
    agent : option react_agent;
    ready : bool
  }.

Definition set_memory (v : list base_message) (c : chatbot) : chatbot :=
  Chatbot (model_name c) (system_message c) (verbose c) v (base_url c) (temperature c)
    (top_p c) (chat_model c) (mcp_server_command c) (mcp_server_args c)
    (mcp_server_params c) (mcp_client c) (mcp_session c) (mcp_read c) (mcp_write c)
    (mcp_tools c) (agent c) (ready c).

Definition set_chat_model (v : option ChatOllama) (c : chatbot) : chatbot :=
  Chatbot (model_name c) (system_message c) (verbose c) (memory c) (base_url c)
    (temperature c) (top_p c) v (mcp_server_command c) (mcp_server_args c)
    (mcp_server_params c) (mcp_client c) (mcp_session c) (mcp_read c) (mcp_write c)
    (mcp_tools c) (agent c) (ready c).

Definition set_mcp_client (v : option stdio_client) (c : chatbot) : chatbot :=
  Chatbot (model_name c) (system_message c) (verbose c) (memory c) (base_url c)
    (temperature c) (top_p c) (chat_model c) (mcp_server_command c) (mcp_server_args c)
    (mcp_server_params c) v (mcp_session c) (mcp_read c) (mcp_write c) (mcp_tools c)
    (agent c) (ready c).

Definition set_mcp_session (v : option ClientSession) (c : chatbot) : chatbot :=
  Chatbot (model_name c) (system_message c) (verbose c) (memory c) (base_url c)
    (temperature c) (top_p c) (chat_model c) (mcp_server_command c) (mcp_server_args c)
    (mcp_server_params c) (mcp_client c) v (mcp_read c) (mcp_write c) (mcp_tools c)
    (agent c) (ready c).

Definition set_mcp_read (v : option stream) (c : chatbot) : chatbot :=
  Chatbot (model_name c) (system_message c) (verbose c) (memory c) (base_url c)
    (temperature c) (top_p c) (chat_model c) (mcp_server_command c) (mcp_server_args c)
    (mcp_server_params c) (mcp_client c) (mcp_session c) v (mcp_write c) (mcp_tools c)
    (agent c) (ready c).

Definition set_mcp_write (v : option stream) (c : chatbot) : chatbot :=
  Chatbot (model_name c) (system_message c) (verbose c) (memory c) (base_url c)
    (temperature c) (top_p c) (chat_model c) (mcp_server_command c) (mcp_server_args c)
    (mcp_server_params c) (mcp_client c) (mcp_session c) (mcp_read c) v (mcp_tools c)
    (agent c) (ready c).

Definition set_mcp_tools (v : option (list mcp_tool)) (c : chatbot) : chatbot :=
  Chatbot (model_name c) (system_message c) (verbose c) (memory c) (base_url c)
    (temperature c) (top_p c) (chat_model c) (mcp_server_command c) (mcp_server_args c)
    (mcp_server_params c) (mcp_client c) (mcp_session c) (mcp_read c) (mcp_write c) v
    (agent c) (ready c).

Definition set_agent (v : option react_agent) (c : chatbot) : chatbot :=
  Chatbot (model_name c) (system_message c) (verbose c) (memory c) (base_url c)
    (temperature c) (top_p c) (chat_model c) (mcp_server_command c) (mcp_server_args c)
    (mcp_server_params c) (mcp_client c) (mcp_session c) (mcp_read c) (mcp_write c)
    (mcp_tools c) v (ready c).

Definition set_ready (v : bool) (c : chatbot) : chatbot :=
  Chatbot (model_name c) (system_message c) (verbose c) (memory c) (base_url c)
    (temperature c) (top_p c) (chat_model c) (mcp_server_command c) (mcp_server_args c)
    (mcp_server_params c) (mcp_client c) (mcp_session c) (mcp_read c) (mcp_write c)
    (mcp_tools c) (agent c) v.

(** ** The world around the object *)

Inductive level : Type :=
| INFO
| ERROR.

(** Calls that leave the process, in the order they were made. *)
Inductive ext_call : Type :=
| ClientEnter (client : stdio_client)
| SessionEnter (session : ClientSession)
| SessionInitialize (session : ClientSession)
| LoadTools (session : ClientSession)
| CreateAgent (model : ChatOllama) (tools : list mcp_tool)
| Ainvoke (a : react_agent) (messages : list base_message)
| SessionExit (session : ClientSession)
| ClientExit (client : stdio_client).

Record state : Type :=
  State { self : chatbot; log : list (level * string); calls : list ext_call }.

Definition on_self (f : chatbot -> chatbot) : st state unit :=
  st_modify (fun s => State (f (self s)) (log s) (calls s)).

Definition get_self : st state chatbot :=
  fun s => (Ok (self s), s).

Definition app_logger (l : level) (text : string) : st state unit :=
  st_modify (fun s => State (self s) (log s ++ [(l, text)]) (calls s)).

(** A call out of the process: the collaborator answers knowing the
    calls made before, and the call is recorded. *)
Definition external {A : Type} (c : ext_call) (answer : list ext_call -> res A) : st state A :=
  fun s => (answer (calls s), State (self s) (log s) (calls s ++ [c])).

Definition when (b : bool) (m : st state unit) : st state unit :=
  if b then m else mret tt.

Fixpoint for_each {A : Type} (l : list A) (body : A -> st state unit) : st state unit :=
  match l with
  | [] => mret tt
  | x :: rest => _ ← body x; for_each rest body
  end.

(** Truth value of an optional string ([None] and the empty string are
    false). *)
Definition nonempty (o : option string) : bool :=
  match o with
  | Some s => negb (String.eqb s "")
  | None => false
  end.

(** ** [BaseChatbot] *)

Definition add_message (m : base_message) : st state unit :=
  on_self (fun c => set_memory (memory c ++ [m]) c).

Definition base_initialize : st state unit :=
  st_raise (Exn NotImplementedError "Subclasses must implement initialize()").

Definition base_chat (message : string) : st state string :=
  st_raise (Exn NotImplementedError "Subclasses must implement chat()").

Definition base_cleanup : st state unit :=
  on_self (set_memory []).

Definition get_history : st state (list base_message) :=
  c ← get_self; mret (memory c).

Definition clear_history : st state unit :=
  on_self (set_memory []).

(** ** [OllamaMCPChatbot] *)

Section Collaborators.

(** The environment variable [OLLAMA_HOST]. *)
Variable OLLAMA_HOST : option string.
(** Entering the client context launches the provider and yields its two
    streams. *)
Variable client_aenter : stdio_client -> list ext_call -> res (stream * stream).
Variable session_aenter : ClientSession -> list ext_call -> res unit.
(** The protocol handshake. *)
Variable session_initialize : ClientSession -> list ext_call -> res unit.
Variable load_mcp_tools : ClientSession -> list ext_call -> res (list mcp_tool).
Variable create_react_agent : ChatOllama -> list mcp_tool -> list ext_call -> res react_agent.
(** The agent's answer: the value under the key [messages], if any. *)
Variable ainvoke :
  react_agent -> list base_message -> list ext_call -> res (option (list base_message)).
Variable session_aexit : ClientSession -> list ext_call -> res unit.
Variable client_aexit : stdio_client -> list ext_call -> res unit.
(** Whether the list [get_history] hands out is the buffer itself (and
    so sees later additions) or a copy of it. *)
Variable history_is_live : bool.

Definition __init__ (model_name : string) (system_message base_url : option string)
    (temperature top_p : py_float) (mcp_server_command : string)
    (mcp_server_args : list string) (verbose : bool) : chatbot :=
  Chatbot model_name system_message verbose []
    (if nonempty base_url then default "" base_url
     else default "http://localhost:11434" OLLAMA_HOST)
    temperature top_p None mcp_server_command mcp_server_args
    (mk_StdioServerParameters mcp_server_command mcp_server_args)
    None None None None None None false.

Definition initialize : st state unit :=
  st_try
    (c ← get_self;
     let model := mk_ChatOllama (model_name c) (base_url c) (temperature c) (top_p c) in
     _ ← on_self (set_chat_model (Some model));
     _ ← when (verbose c)
           (app_logger INFO ("Initializing Ollama with model: " +:+ model_name c));
     _ ← when (verbose c) (app_logger INFO "Initializing MCP connection");
     let client := mk_stdio_client (mcp_server_params c) in
     _ ← on_self (set_mcp_client (Some client));
     streams ← external (ClientEnter client) (client_aenter client);
     _ ← on_self (set_mcp_read (Some (fst streams)));
     _ ← on_self (set_mcp_write (Some (snd streams)));
     let session := mk_ClientSession (fst streams) (snd streams) in
     _ ← on_self (set_mcp_session (Some session));
     _ ← external (SessionEnter session) (session_aenter session);
     _ ← external (SessionInitialize session) (session_initialize session);
     tools ← external (LoadTools session) (load_mcp_tools session);
     _ ← on_self (set_mcp_tools (Some tools));
     _ ← when (verbose c)
           (_ ← app_logger INFO "Available MCP tools:";
            for_each tools (fun tool =>
              app_logger INFO ("- " +:+ tool_name tool +:+ ": " +:+ tool_description tool)));
     a ← external (CreateAgent model tools) (create_react_agent model tools);
     _ ← on_self (set_agent (Some a));
     _ ← on_self (set_ready true);
     when (nonempty (system_message c))
       (add_message (SystemMessage (default "" (system_message c)))))
    (fun e =>
       _ ← app_logger ERROR ("Failed to initialize OllamaMCP chatbot: " +:+ exn_str e);
       _ ← on_self (set_ready false);
       st_raise e).

(** The loop of [chat] over the messages of the agent's answer;
    [response_content] is the text found so far. *)
Fixpoint collect (messages : list base_message) (response_content : string)
    : st state string :=
  match messages with
  | [] => mret response_content
  | message :: rest =>
      if bool_decide (kind message = AI) && negb (String.eqb (content message) "") then
        _ ← add_message (AIMessage (content message));
        collect rest (content message)
      else if bool_decide (kind message = Tool) && negb (String.eqb (content message) "") then
        _ ← add_message message;
        collect rest response_content
      else collect rest response_content
  end.

Definition chat (message : string) : st state string :=
  c ← get_self;
  _ ← (if negb (ready c) then initialize else mret tt);
  c ← get_self;
  if negb (ready c) then mret "Chatbot is not ready. Please check the logs and try again."
  else
    history ← get_history;
    _ ← add_message (HumanMessage message);
    st_try
      (let history := if history_is_live then history ++ [HumanMessage message] else history in
       let messages := history ++ [HumanMessage message] in
       agent_response ←
         match agent c with
         | Some a => external (Ainvoke a messages) (ainvoke a messages)
         | None =>
             st_raise (Exn AttributeError "'NoneType' object has no attribute 'ainvoke'")
         end;
       collect (default [] agent_response) "")
      (fun e =>
         let error_msg := "Error processing message: " +:+ exn_str e in
         _ ← app_logger ERROR error_msg;
         mret error_msg).

Definition cleanup : st state unit :=
  _ ← base_cleanup;
  c ← get_self;
  _ ← match mcp_session c with
      | Some session =>
          st_try
            (_ ← external (SessionExit session) (session_aexit session);
             match mcp_client c with
             | Some client => external (ClientExit client) (client_aexit client)
             | None =>
                 st_raise (Exn AttributeError
                   "'OllamaMCPChatbot' object has no attribute 'mcp_client'")
             end)
            (fun e => app_logger ERROR ("Error cleaning up MCP session: " +:+ exn_str e))
      | None => mret tt
      end;
  _ ← on_self (set_chat_model None);
  _ ← on_self (set_mcp_session None);
  _ ← on_self (set_mcp_read None);
  _ ← on_self (set_mcp_write None);
  _ ← on_self (set_mcp_tools None);
  _ ← on_self (set_agent None);
  on_self (set_ready false).

Definition get_available_tools : st state (list mcp_tool) :=
  c ← get_self;
  match mcp_tools c with
  | Some (tool :: rest) => mret (tool :: rest)
  | _ => mret []
  end.

End Collaborators.

End Chatbot.

(* ===================================================================== *)
(** * Vocabulary of the specification and sample inputs *)
(* ===================================================================== *)

Module Vocabulary.
Import Py.






(** A character that occurs in no integer literal: neither a digit, nor
    white space, an underscore or a sign. *)
Definition stray (c : ascii) : bool :=
  negb (is_digit c || is_space c || (c =? "_")%char || (c =? "+")%char || (c =? "-")%char).

Fixpoint has_stray (s : string) : bool :=
  match s with
  | EmptyString => false
  | String c s' => stray c || has_stray s'
  end.
End Vocabulary.

Module ToolVocabulary.
Import Py ToolUse.

Definition backend_calls (tr : list event) : nat := length (List.filter is_backend_call tr).

Definition invocations (tr : list event) : nat := length (List.filter is_invocation tr).

Definition not_found_line (tool : tool_call) : event :=
  Printed ("Function " +:+ fn_name tool +:+ " not found").

End ToolVocabulary.

Module ToolScenarios.
Import Py ToolUse.

(** A quote service that knows no price at all. *)
Definition no_quote (_ : value) : res kwargs := Ok [].
Definition no_last_price (_ : value) : res (option value) := Ok None.
Definition http_ok (_ _ : value) (_ : kwargs) : res response := Ok (Response 200 (Ok tt)).


(** A backend that asks for a capability nobody registered. *)
Definition asks_unknown (_ : string) (_ : list chat_message) (_ : list tool_def)
    : res chat_response :=
  Ok (ChatResponse "" (Some [ToolCall "calc/div" [("a", VInt 1); ("b", VInt 0)]])).

(** A backend that answers in plain text. *)
Definition answers_four (_ : string) (_ : list chat_message) (_ : list tool_def)
    : res chat_response :=
  Ok (ChatResponse "4" None).

End ToolScenarios.

Module ConfigVocabulary.
Import Py Mcp.

(** The active flag of an entry, if the entry is a mapping that has one. *)
Definition active_flag (server_config : json) : option json :=
  match server_config with
  | JObj fields => lookup_field "active" fields
  | _ => None
  end.

(** An entry counts as active when its flag is present and true (or, for
    a flag that is not a boolean, counts as true in a condition). *)
Definition is_active (server_config : json) : bool :=
  json_truthy (default (JBool false) (active_flag server_config)).

Definition active_entries (servers : list (string * json)) : list (string * json) :=
  List.filter (fun entry => is_active entry.2) servers.

(** The three fields of a well-formed entry: a command, a sequence of
    argument strings and the instructions. *)
Record launch : Type :=
  Launch { launch_command : string; launch_args : list string; launch_instructions : json }.

Definition has_launch (server_config : json) (l : launch) : Prop :=
  exists fields,
    server_config = JObj fields /\
    lookup_field "command" fields = Some (JStr (launch_command l)) /\
    lookup_field "args" fields = Some (JList (map JStr (launch_args l))) /\
    lookup_field "instructions" fields = Some (launch_instructions l).

Definition well_formed (server_config : json) : Prop := exists l, has_launch server_config l.

(** The handle expected for a well-formed entry. *)
Definition handle_for (l : launch) : Agent :=
  mk_Agent (launch_instructions l) LLM
    (mk_MCP (join " " (launch_command l :: launch_args l))) true.

(** An entry that lacks one of the three fields. *)
Definition lacks_field (server_config : json) : Prop :=
  exists fields k,
    server_config = JObj fields /\
    In k ["command"; "args"; "instructions"] /\
    lookup_field k fields = None.

Definition is_mapping (server_config : json) : Prop := exists fields, server_config = JObj fields.

End ConfigVocabulary.

Module ConfigScenarios.
Import Py Mcp.

(** The configuration of the scenario: calc is active, web is not. *)
Definition calc_and_web : list (string * json) :=
  [("calc", JObj [("command", JStr "tool-calc"); ("args", JList []);
                  ("active", JBool true); ("instructions", JStr "")]);
   ("web", JObj [("command", JStr "tool-web"); ("args", JList []);
                 ("active", JBool false); ("instructions", JStr "")])].

(** An active entry without a command, followed by a well-formed one. *)
Definition broken_then_calc : list (string * json) :=
  [("broken", JObj [("args", JList []); ("active", JBool true); ("instructions", JStr "")]);
   ("calc", JObj [("command", JStr "tool-calc"); ("args", JList []);
                  ("active", JBool true); ("instructions", JStr "")])].

End ConfigScenarios.

Module ChatVocabulary.
Import Py Chatbot.

(** The provider connection and the model of a chatbot are the same in
    [c'] as in [c]. *)
Definition same_connection (c c' : chatbot) : Prop :=
  mcp_session c' = mcp_session c /\
  mcp_client c' = mcp_client c /\
  mcp_read c' = mcp_read c /\
  mcp_write c' = mcp_write c /\
  mcp_tools c' = mcp_tools c /\
  agent c' = agent c /\
  ready c' = ready c /\
  chat_model c' = chat_model c.

Definition same_settings (c c' : chatbot) : Prop :=
  model_name c' = model_name c /\
  system_message c' = system_message c /\
  verbose c' = verbose c /\
  base_url c' = base_url c /\
  temperature c' = temperature c /\
  top_p c' = top_p c /\
  mcp_server_command c' = mcp_server_command c /\
  mcp_server_args c' = mcp_server_args c /\
  mcp_server_params c' = mcp_server_params c.

(** The state [cleanup] is meant to reach. *)
Definition released (c : chatbot) : Prop :=
  memory c = [] /\
  chat_model c = None /\
  mcp_session c = None /\
  mcp_read c = None /\
  mcp_write c = None /\
  mcp_tools c = None /\
  agent c = None /\
  ready c = false.

(** What [chat] keeps of one message of the agent's answer. *)
Definition kept_message (message : base_message) : option base_message :=
  if bool_decide (kind message = AI) && negb (String.eqb (content message) "")
  then Some (AIMessage (content message))
  else if bool_decide (kind message = Tool) && negb (String.eqb (content message) "")
  then Some message
  else None.

Definition kept (messages : list base_message) : list base_message :=
  omap kept_message messages.

(** The text [chat] returns: that of the last assistant message with
    text, [response_content] if there is none. *)
Fixpoint final_content (messages : list base_message) (response_content : string) : string :=
  match messages with
  | [] => response_content
  | message :: rest =>
      if bool_decide (kind message = AI) && negb (String.eqb (content message) "")
      then final_content rest (content message)
      else final_content rest response_content
  end.

(** The messages [chat] hands to the agent. *)
Definition agent_input (history_is_live : bool) (c : chatbot) (message : string)
    : list base_message :=
  (if history_is_live then memory c ++ [HumanMessage message] else memory c)
    ++ [HumanMessage message].

(** The text of no message in [history] is [text]. *)
Definition absent_from (text : string) (history : list base_message) : Prop :=
  Forall (fun message => content message <> text) history.

End ChatVocabulary.

Module ChatScenarios.
Import Py Chatbot.

Definition calculator_params : StdioServerParameters :=
  mk_StdioServerParameters "uvx" ["mcp-server-calculator"].

(** A chatbot as its constructor leaves it. *)
Definition fresh : chatbot :=
  __init__ None "llama3.2" None None (Float "0.7") (Float "0.9") "uvx"
    ["mcp-server-calculator"] false.

Definition calculator : mcp_tool := McpTool "calculate" "Calculates an expression" None.

(** A chatbot after a successful [initialize]. *)
Definition connected : chatbot :=
  Chatbot "llama3.2" None false [] "http://localhost:11434" (Float "0.7") (Float "0.9")
    (Some (mk_ChatOllama "llama3.2" "http://localhost:11434" (Float "0.7") (Float "0.9")))
    "uvx" ["mcp-server-calculator"] calculator_params
    (Some (mk_stdio_client calculator_params))
    (Some (mk_ClientSession (Stream 0) (Stream 1)))
    (Some (Stream 0)) (Some (Stream 1)) (Some [calculator]) (Some (ReactAgent 0)) true.

Definition start (c : chatbot) : state := State c [] [].

(** Collaborators that all do their work. *)
Definition enter_ok (_ : stdio_client) (_ : list ext_call) : res (stream * stream) :=
  Ok (Stream 0, Stream 1).
Definition session_ok (_ : ClientSession) (_ : list ext_call) : res unit := Ok tt.
Definition tools_ok (_ : ClientSession) (_ : list ext_call) : res (list mcp_tool) :=
  Ok [calculator].
Definition agent_ok (_ : ChatOllama) (_ : list mcp_tool) (_ : list ext_call)
    : res react_agent := Ok (ReactAgent 0).
Definition client_ok (_ : stdio_client) (_ : list ext_call) : res unit := Ok tt.

(** The provider's executable cannot be started. *)
Definition enter_fails (_ : stdio_client) (_ : list ext_call) : res (stream * stream) :=
  Raise (Exn (ForeignError "FileNotFoundError") "[Errno 2] No such file or directory: 'uvx'").

(** The invoked capability divides by zero and the error leaves the agent. *)
Definition divides_by_zero (_ : react_agent) (_ : list base_message) (_ : list ext_call)
    : res (option (list base_message)) :=
  Raise (Exn (ForeignError "ZeroDivisionError") "division by zero").

(** The agent answers with an assistant message without text. *)
Definition answers_nothing (_ : react_agent) (_ : list base_message) (_ : list ext_call)
    : res (option (list base_message)) :=
  Ok (Some [AIMessage ""]).

(** The agent answers 96 in plain text. *)
Definition answers_96 (_ : react_agent) (_ : list base_message) (_ : list ext_call)
    : res (option (list base_message)) :=
  Ok (Some [AIMessage "96"]).

(** Closing the session fails. *)
Definition session_exit_fails (_ : ClientSession) (_ : list ext_call) : res unit :=
  Raise (Exn (ForeignError "RuntimeError") "Attempted to exit cancel scope in a different task").

End ChatScenarios.

Module ToolDemo.
Import Py ToolUse.

(** The signature of a registered method: its parameters (none has a
    default) and whether it ends in a catch-all keyword parameter. *)
Definition parameters (m : method) : list string :=
  match m with
  | m_get_stock_price => ["symbol"]
  | m_request_with_headers => ["method"; "url"]
  | m_add_numbers => ["a"; "b"]
  | m_subtract_numbers => ["a"; "b"]
  | m_arithmetic => ["operation"; "a"; "b"]
  end.

Definition takes_extra (m : method) : bool :=
  match m with
  | m_request_with_headers => true
  | _ => false
  end.

(** The keywords [d] fit a signature: every parameter is supplied and,
    without a catch-all, nothing else is. *)
Definition fits_signature (params : list string) (var_kw : bool) (d : kwargs) : bool :=
  forallb (fun p => has_key p d) params
  && (var_kw || forallb (fun kv => existsb (String.eqb kv.1) params) d).

Definition fits (m : method) (d : kwargs) : bool :=
  fits_signature (parameters m) (takes_extra m) d.

(** What [request_with_headers] may hand to the library, given the
    keywords [kw] of its caller: both [headers] and [timeout] are there,
    the caller's keywords are kept, and a missing [timeout] is 10. *)
Definition completes (kw k : kwargs) : Prop :=
  has_key "headers" k = true /\
  has_key "timeout" k = true /\
  (forall key v, lookup_kw key kw = Some v -> lookup_kw key k = Some v) /\
  (has_key "timeout" kw = false -> lookup_kw "timeout" k = Some (VInt 10)) /\
  (has_key "headers" kw = false ->
   lookup_kw "headers" k = Some (VDict [("User-Agent", default_user_agent)])).


Section Manager.

Variable ticker_info : value -> res kwargs.
Variable ticker_last_price : value -> res (option value).
Variable requests_request : value -> value -> kwargs -> res response.
Variable ollama_chat : string -> list chat_message -> list tool_def -> res chat_response.

(** [main]: the three example prompts, one after the other. *)
Definition main : st (list event) unit :=
  let process_prompt :=
    process_prompt ticker_info ticker_last_price requests_request ollama_chat in
  _ ← process_prompt "What is the current stock price of Apple?" "llama3.2";
  _ ← process_prompt "What is three plus one?" "llama3.2";
  _ ← process_prompt "get the https://httpbin.org/get webpage?" "llama3.2";
  mret tt.

End Manager.

End ToolDemo.

Module McpDemo.
Import Py Mcp.

Definition airbnb_query : string :=
  "Search for Apartments in Paris for 2 nights. 04/28 - 04/30 for 2 adults.".

Definition newline : string := String "010" "".

Section Script.

(** [load_mcp_config()] *)
Variable load_mcp_config : res json.
(** [agent.start(prompt)]: the agent's answer as printed, or its error. *)
Variable start : Agent -> string -> res string.

(** The script under [if __name__ == "__main__"]: what it prints. *)
Definition script : res (list string) :=
  agents ← create_agents load_mcp_config;
  match agents !! "airbnb" with
  | Some airbnb_agent =>
      response ← start airbnb_agent airbnb_query;
      Ok [newline +:+ "Search Results:"; response]
  | None => Ok []
  end.

End Script.

(** The one-character strings [list.extend] takes from a string. *)
Fixpoint characters (s : string) : list string :=
  match s with
  | EmptyString => []
  | String c s' => String c "" :: characters s'
  end.

(** The two entries of the scenario. *)
Definition calc_entry : json :=
  JObj [("command", JStr "tool-calc"); ("args", JList []);
        ("active", JBool true); ("instructions", JStr "")].

Definition web_entry : json :=
  JObj [("command", JStr "tool-web"); ("args", JList []);
        ("active", JBool false); ("instructions", JStr "")].

(** An entry whose flag is the text false. *)
Definition text_flag_entry : json :=
  JObj [("command", JStr "tool-calc"); ("args", JList []);
        ("active", JStr "false"); ("instructions", JStr "")].

End McpDemo.

Module ChatDemo.
Import Py Chatbot.

(** The chatbot's world together with what was printed. *)
Record console : Type := Console { machine : state; stdout : list string }.

Definition on_machine {A : Type} (m : st state A) : st console A :=
  fun c => ((m (machine c)).1, Console (m (machine c)).2 (stdout c)).

Definition print (text : string) : st console unit :=
  st_modify (fun c => Console (machine c) (stdout c ++ [text])).

Fixpoint print_each {A : Type} (l : list A) (line : A -> string) : st console unit :=
  match l with
  | [] => mret tt
  | x :: rest => _ ← print (line x); print_each rest line
  end.

(** [try: body finally: final] *)
Definition st_finally {S A : Type} (body : st S A) (final : st S unit) : st S A :=
  fun s =>
    match final (body s).2 with
    | (Ok _, s') => ((body s).1, s')
    | (Raise e, s') => (Raise e, s')
    end.

Definition newline : string := String "010" "".

(** The label [main] prints in front of a message of the history. *)
Definition role_of (message : base_message) : string :=
  match kind message with
  | System => "System"
  | Human => "Human"
  | AI => "AI"
  | Tool => "Tool(" +:+ default "None" (tool_call_id message) +:+ ")"
  | Other cls => cls
  end.

(** The system message a successful [initialize] appends. *)
Definition system_entry (c : chatbot) : list base_message :=
  if nonempty (system_message c) then [SystemMessage (default "" (system_message c))] else [].

Section Collaborators.

Variable OLLAMA_HOST : option string.
Variable client_aenter : stdio_client -> list ext_call -> res (stream * stream).
Variable session_aenter : ClientSession -> list ext_call -> res unit.
Variable session_initialize : ClientSession -> list ext_call -> res unit.
Variable load_mcp_tools : ClientSession -> list ext_call -> res (list mcp_tool).
Variable create_react_agent : ChatOllama -> list mcp_tool -> list ext_call -> res react_agent.
Variable ainvoke :
  react_agent -> list base_message -> list ext_call -> res (option (list base_message)).
Variable session_aexit : ClientSession -> list ext_call -> res unit.
Variable client_aexit : stdio_client -> list ext_call -> res unit.
Variable history_is_live : bool.

(** The chatbot [main] constructs. *)
Definition demo_chatbot : chatbot :=
  __init__ OLLAMA_HOST "llama3.2"
    (Some "You are a helpful AI assistant that can use tools to solve problems.")
    None (Float "0.7") (Float "0.9") "uvx" ["mcp-server-calculator"] true.

(** The statements of [main] under [try]. *)
Definition main_body : st console unit :=
  let chat :=
    chat client_aenter session_aenter session_initialize load_mcp_tools
      create_react_agent ainvoke history_is_live in
  _ ← on_machine (initialize client_aenter session_aenter session_initialize
                    load_mcp_tools create_react_agent);
  tools ← on_machine get_available_tools;
  _ ← print (newline +:+ "=== Available MCP Tools ===");
  _ ← print_each tools (fun tool => "- " +:+ tool_name tool +:+ ": " +:+ tool_description tool);
  _ ← print (newline +:+ "=== Calculation Query Example ===");
  response ← on_machine (chat "what's (3 + 5) x 12?");
  _ ← print ("Bot: " +:+ response);
  _ ← print (newline +:+ "=== Another Query Example ===");
  response ← on_machine (chat "Can you calculate 25 * 4 + 7?");
  _ ← print ("Bot: " +:+ response);
  _ ← print (newline +:+ "=== Chat History ===");
  history ← on_machine get_history;
  print_each history (fun message => role_of message +:+ ": " +:+ content message).

Definition main : st console unit :=
  _ ← on_machine (on_self (fun _ => demo_chatbot));
  st_finally main_body (on_machine (cleanup session_aexit client_aexit)).

End Collaborators.

(** The handshake is refused. *)
Definition handshake_fails (_ : ClientSession) (_ : list ext_call) : res unit :=
  Raise (Exn (ForeignError "McpError") "Connection closed").

(** An answer with a tool round trip: the request, the tool's result and
    the final text. *)
Definition answers_with_tool (_ : react_agent) (_ : list base_message) (_ : list ext_call)
    : res (option (list base_message)) :=
  Ok (Some [BaseMessage AI "" None [ToolRequest "calculate" [("expression", VStr "(3+5)*12")] "call_1"];
            BaseMessage Tool "96" (Some "call_1") [];
            AIMessage "The result is 96."]).

End ChatDemo.

(* ===================================================================== *)
(** * Properties *)
(* ===================================================================== *)

(** ** The arithmetic tool *)

Module ArithmeticFacts.
Import Py ToolUse Vocabulary.











(** *** Strings that are no literals *)

Lemma stray_not_space c : stray c = true -> is_space c = false.
Proof.
  unfold stray. intros H. apply negb_true_iff in H.
  repeat (apply orb_false_iff in H as [H ?]). done.
Qed.

Lemma space_not_stray c : is_space c = true -> stray c = false.
Proof. intros H. destruct (stray c) eqn:Hs; [|done]. apply stray_not_space in Hs. congruence. Qed.

Lemma has_stray_lstrip s : has_stray s = true -> has_stray (lstrip s) = true.
Proof.
  induction s as [|c s IH]; simpl; [done|].
  destruct (is_space c) eqn:Hc; [|done].
  rewrite (space_not_stray c Hc). simpl. exact IH.
Qed.

Lemma has_stray_rstrip s : has_stray s = true -> has_stray (rstrip s) = true.
Proof.
  induction s as [|c s IH]; simpl; [done|].
  intros [Hc | Hs]%orb_true_iff.
  - rewrite (stray_not_space c Hc). destruct (rstrip s); simpl; by rewrite Hc.
  - specialize (IH Hs). destruct (rstrip s) as [|c' r]; [done|].
    simpl in *. rewrite IH. apply orb_true_r.
Qed.

Lemma parse_digits_stray s : forall acc after_digit,
  has_stray s = true -> parse_digits acc after_digit s = None.
Proof.
  induction s as [|c s IH]; intros acc b; simpl; [done|].
  intros H. destruct (Ascii.eqb_spec c "_") as [-> | Hne].
  - simpl in H. destruct b; [by apply IH | done].
  - destruct (is_digit c) eqn:Hd; [|done].
    apply IH. unfold stray in H. rewrite Hd in H. exact H.
Qed.

(** A string with a stray character is no integer literal. *)
Lemma int_literal_stray s : has_stray s = true -> int_literal s = None.
Proof.
  intros H. unfold int_literal, strip.
  pose proof (has_stray_rstrip _ (has_stray_lstrip s H)) as Ht.
  destruct (rstrip (lstrip s)) as [|c r]; [done|].
  pose proof (parse_digits_stray (String c r) 0 false Ht) as Hall.
  assert (stray c = false -> parse_digits 0 false r = None) as Hr.
  { intros Hc. apply parse_digits_stray. simpl in Ht. by rewrite Hc in Ht. }
  destruct c as [[] [] [] [] [] [] [] []]; try exact Hall; rewrite Hr; reflexivity.
Qed.

End ArithmeticFacts.

Module ArithmeticSpec.
Import Py ToolUse Vocabulary ArithmeticFacts.


Lemma arithmetic_never_raises op a b : returns (arithmetic op a b).
Proof.
  unfold arithmetic, try_except.
  match goal with |- returns (match ?body with _ => _ end) => destruct body as [v|e] eqn:Hbody end.
  - by exists v.
  - destruct (is_Exception e) eqn:He; [unfold returns; eauto|].
    exfalso.
    destruct a as [| | |sa|], b as [| | |sb|]; simpl in Hbody;
      unfold py_int in Hbody;
      repeat match type of Hbody with
             | context [int_literal ?s] => destruct (int_literal s); simpl in Hbody
             end;
      repeat match type of Hbody with
             | context [if ?c then _ else _] => destruct c; simpl in Hbody
             end;
      try discriminate Hbody;
      injection Hbody as <-; discriminate He.
Qed.




End ArithmeticSpec.

(** ** The tool manager's prompt processing *)

Module ProcessPromptSpec.
Import Py ToolUse ToolVocabulary.

Section Manager.

Variable ticker_info : value -> res kwargs.
Variable ticker_last_price : value -> res (option value).
Variable requests_request : value -> value -> kwargs -> res response.
Variable ollama_chat : string -> list chat_message -> list tool_def -> res chat_response.

#[local] Abbreviation call := (call ticker_info ticker_last_price requests_request).
#[local] Abbreviation tool_loop := (tool_loop ticker_info ticker_last_price requests_request).
#[local] Abbreviation process_prompt :=
  (process_prompt ticker_info ticker_last_price requests_request ollama_chat).

#[local] Ltac st_unfold :=
  unfold mbind, st_mbind, st_bind, print, record, st_modify, st_lift, mret, st_mret, st_ret;
  simpl.

#[local] Ltac count := unfold backend_calls, invocations in *; simpl; lia.

(** What one run of the loop over the requested tools adds to the trace. *)
Lemma tool_loop_trace calls : forall tr,
  exists added,
    (tool_loop calls tr).2 = tr ++ added /\
    backend_calls added = 0 /\
    invocations added <= 1 /\
    (returns (tool_loop calls tr).1 \/
     exists e m args,
       (tool_loop calls tr).1 = Raise e /\ In (Invoked m args) added /\ call m args = Raise e).
Proof.
  induction calls as [|tool rest IH]; intros tr.
  - exists []. simpl. rewrite app_nil_r.
    split; [done|]. split; [done|]. split; [count|]. left. by eexists.
  - simpl. destruct (available_functions !! fn_name tool) as [m|] eqn:Hm.
    + st_unfold.
      destruct (call m (fn_arguments tool)) as [v|e] eqn:Hcall.
      * eexists [_; _; _; _]. split.
        { simpl. rewrite <- !app_assoc. reflexivity. }
        split; [done|]. split; [count|]. left. by eexists.
      * eexists [_; _; _]. split.
        { simpl. rewrite <- !app_assoc. reflexivity. }
        split; [done|]. split; [count|]. right. exists e, m, (fn_arguments tool).
        split; [done|]. split; [|done]. simpl. tauto.
    + st_unfold.
      destruct (IH (tr ++ [Printed ("Function " +:+ fn_name tool +:+ " not found")]))
        as (added & Htr & Hb & Hi & Hr).
      exists (Printed ("Function " +:+ fn_name tool +:+ " not found") :: added).
      split; [by rewrite Htr, <- app_assoc|].
      split; [done|]. split; [done|].
      destruct Hr as [Hr | (e & m & args & He & Hin & Hc)]; [by left|].
      right. exists e, m, args. split; [done|]. split; [by right | done].
Qed.


Lemma tool_loop_all_unknown calls : forall tr,
  (forall c, In c calls -> available_functions !! fn_name c = None) ->
  tool_loop calls tr = (Ok None, tr ++ map not_found_line calls).
Proof.
  induction calls as [|tool rest IH]; intros tr Hall.
  - simpl. by rewrite app_nil_r.
  - simpl. rewrite (Hall tool (or_introl eq_refl)). st_unfold.
    rewrite IH by (intros c Hc; apply Hall; by right).
    by rewrite <- app_assoc.
Qed.

#[local] Arguments ToolUse.tool_loop : simpl never.

(** A reply without tool calls: nothing is invoked and [None] comes back;
    the reply's text is dropped. *)
Lemma process_prompt_plain_reply prompt model reply :
  ollama_chat model [ChatMessage "user" prompt] tools = Ok reply ->
  tool_calls reply = None \/ tool_calls reply = Some [] ->
  process_prompt prompt model [] =
    (Ok VNone, [Printed ("Prompt: " +:+ prompt); BackendCall model [ChatMessage "user" prompt]]).
Proof.
  intros Hreply Hcalls. unfold ToolUse.process_prompt. st_unfold. rewrite Hreply.
  destruct Hcalls as [-> | ->]; reflexivity.
Qed.


(** C7 (as amended).  A requested capability whose name is not a key of
    [available_functions] raises no error: [process_prompt] prints the
    line Function NAME not found and goes on to the next request.  When
    none of the requested names is registered, the call returns [None]
    and the trace holds the prompt line, the backend call and one such
    line per request, in request order. *)
Theorem unknown_capability_is_printed (prompt model : string) (reply : chat_response)
    (calls : list tool_call) :
  ollama_chat model [ChatMessage "user" prompt] tools = Ok reply ->
  tool_calls reply = Some calls ->
  (forall c, In c calls -> available_functions !! fn_name c = None) ->
  process_prompt prompt model [] =
    (Ok VNone,
     [Printed ("Prompt: " +:+ prompt); BackendCall model [ChatMessage "user" prompt]]
       ++ map not_found_line calls).
Proof.
  intros Hreply Hcalls Hall.
  destruct calls as [|tool rest].
  - rewrite (process_prompt_plain_reply prompt model reply Hreply (or_intror Hcalls)).
    by rewrite app_nil_r.
  - unfold ToolUse.process_prompt. st_unfold. rewrite Hreply, Hcalls.
    rewrite (tool_loop_all_unknown (tool :: rest) _ Hall). reflexivity.
Qed.

End Manager.

Import ToolScenarios.


Lemma unknown_capability_is_printed_witness :
  process_prompt no_quote no_last_price http_ok asks_unknown "What is 1 / 0?" "llama3.2" [] =
    (Ok VNone,
     [Printed "Prompt: What is 1 / 0?";
      BackendCall "llama3.2" [ChatMessage "user" "What is 1 / 0?"];
      Printed "Function calc/div not found"]).
Proof.
  apply (unknown_capability_is_printed no_quote no_last_price http_ok asks_unknown
           "What is 1 / 0?" "llama3.2"
           (ChatResponse "" (Some [ToolCall "calc/div" [("a", VInt 1); ("b", VInt 0)]]))
           [ToolCall "calc/div" [("a", VInt 1); ("b", VInt 0)]]).
  - reflexivity.
  - reflexivity.
  - intros c [<- | []]. vm_compute. reflexivity.
Defined.

(** C7, as stated, fails: the request for the unregistered name calc/div
    makes [process_prompt] return [None]; no UnknownCapabilityError, and
    no other error, is raised. *)
Lemma unknown_capability_raises_nothing :
  (process_prompt no_quote no_last_price http_ok asks_unknown "What is 1 / 0?" "llama3.2" []).1
    = Ok VNone /\
  ~ exists e,
      (process_prompt no_quote no_last_price http_ok asks_unknown
         "What is 1 / 0?" "llama3.2" []).1 = Raise e.
Proof.
  split; [reflexivity|]. intros [e He]. vm_compute in He. discriminate He.
Qed.

End ProcessPromptSpec.

(** ** The configuration loader *)

Module ConfigFacts.
Import Py Mcp ConfigVocabulary.

#[local] Ltac res_unfold := unfold mbind, res_mbind, res_bind; simpl.

Lemma str_items_strings (l : list string) : forall i, str_items i (map JStr l) = Ok l.
Proof.
  induction l as [|s l IH]; intros i; simpl; [done|].
  rewrite IH. reflexivity.
Qed.

(** An entry whose flag is absent or false leaves the handles alone,
    whatever else it contains. *)
Lemma server_round_inactive agents name server_config :
  is_mapping server_config -> is_active server_config = false ->
  server_round agents name server_config = Ok agents.
Proof.
  intros [fields ->] Hactive. unfold server_round, is_active in *. simpl in *.
  res_unfold. by rewrite Hactive.
Qed.

Lemma server_round_well_formed agents name server_config l :
  is_active server_config = true -> has_launch server_config l ->
  server_round agents name server_config = Ok (<[name := handle_for l]> agents).
Proof.
  intros Hactive (fields & -> & Hc & Ha & Hi).
  unfold server_round, is_active in *. simpl in *. res_unfold.
  rewrite Hactive. simpl. rewrite Hc, Ha. simpl.
  unfold str_join. res_unfold. rewrite str_items_strings. simpl. rewrite Hi.
  reflexivity.
Qed.

Lemma server_round_lacks_field agents name server_config :
  is_active server_config = true -> lacks_field server_config ->
  exists e, server_round agents name server_config = Raise e.
Proof.
  intros Hactive (fields & k & -> & Hk & Hnone).
  unfold server_round, is_active in *. simpl in *. res_unfold. rewrite Hactive. simpl.
  destruct (lookup_field "command" fields) as [command|] eqn:Hc; [|by eexists]. simpl.
  destruct (lookup_field "args" fields) as [args|] eqn:Ha; [|by eexists]. simpl.
  destruct (iterate args) as [extension|e]; [|by eexists]. simpl.
  destruct (str_join " " (command :: extension)) as [mcp_command|e]; [|by eexists]. simpl.
  destruct (lookup_field "instructions" fields) as [instructions|] eqn:Hi; [|by eexists].
  destruct Hk as [<- | [<- | [<- | []]]]; congruence.
Qed.

Lemma map_JStr_inj (a a' : list string) : map JStr a = map JStr a' -> a = a'.
Proof.
  revert a'. induction a as [|x a IH]; intros [|x' a'] H; try discriminate H; [done|].
  simpl in H. injection H as -> H. f_equal. by apply IH.
Qed.

Lemma has_launch_unique server_config l l' :
  has_launch server_config l -> has_launch server_config l' -> l = l'.
Proof.
  intros (fields & -> & Hc & Ha & Hi) (fields' & [= <-] & Hc' & Ha' & Hi').
  rewrite Hc in Hc'. rewrite Ha in Ha'. rewrite Hi in Hi'.
  destruct l as [c a i], l' as [c' a' i']. simpl in *.
  injection Hc' as ->. injection Hi' as ->. injection Ha' as Ha'.
  by rewrite (map_JStr_inj a a' Ha').
Qed.

Lemma active_entries_cons_active name server_config rest :
  is_active server_config = true ->
  active_entries ((name, server_config) :: rest) = (name, server_config) :: active_entries rest.
Proof. intros H. unfold active_entries. simpl. by rewrite H. Qed.

Lemma active_entries_cons_inactive name server_config rest :
  is_active server_config = false ->
  active_entries ((name, server_config) :: rest) = active_entries rest.
Proof. intros H. unfold active_entries. simpl. by rewrite H. Qed.

#[local] Arguments active_entries : simpl never.

(** Either a name has an active entry or all its entries are inactive. *)
Lemma active_entry_or_none (name : string) (servers : list (string * json)) :
  (exists server_config, In (name, server_config) servers /\ is_active server_config = true) \/
  (forall server_config, In (name, server_config) servers -> is_active server_config = false).
Proof.
  induction servers as [|[n c] rest IH].
  - right. intros c [].
  - destruct IH as [(c' & Hin & Hact) | Hnone].
    + left. exists c'. split; [by right | done].
    + destruct (decide (n = name)) as [-> | Hne].
      * destruct (is_active c) eqn:Hc.
        -- left. exists c. split; [by left | done].
        -- right. intros c' [[= <-] | Hin]; [done | by apply Hnone].
      * right. intros c' [[= -> <-] | Hin]; [done | by apply Hnone].
Qed.

(** Inactive entries do not take part in the loop. *)
Lemma server_loop_active_entries servers : forall agents,
  (forall name server_config, In (name, server_config) servers -> is_mapping server_config) ->
  server_loop servers agents = server_loop (active_entries servers) agents.
Proof.
  induction servers as [|[n c] rest IH]; intros agents Hmap; [done|].
  assert (Hrest : forall name server_config,
             In (name, server_config) rest -> is_mapping server_config).
  { intros name sc Hin. apply (Hmap name). by right. }
  destruct (is_active c) eqn:Hc.
  - rewrite (active_entries_cons_active n c rest Hc). simpl.
    destruct (server_round agents n c) as [agents'|e]; simpl; [by apply IH | done].
  - rewrite (active_entries_cons_inactive n c rest Hc). simpl.
    rewrite (server_round_inactive agents n c (Hmap n c (or_introl eq_refl)) Hc). simpl.
    by apply IH.
Qed.

(** An active entry that lacks a field makes the loop raise. *)
Lemma server_loop_lacks_field servers : forall agents name server_config,
  In (name, server_config) servers ->
  is_active server_config = true -> lacks_field server_config ->
  exists e, server_loop servers agents = Raise e.
Proof.
  induction servers as [|[n c] rest IH]; intros agents name sc Hin Hact Hlack; [done|].
  simpl. destruct (server_round agents n c) as [agents'|e] eqn:Hround; simpl.
  - destruct Hin as [[= -> ->] | Hin].
    + destruct (server_round_lacks_field agents name sc Hact Hlack) as [e He]. congruence.
    + by apply (IH agents' name sc).
  - by eexists.
Qed.

(** The loop over well-formed entries: it completes, and the resulting
    handles are those of the active entries on top of [agents]. *)
Lemma server_loop_well_formed servers : forall agents,
  NoDup (map fst servers) ->
  (forall name server_config, In (name, server_config) servers ->
     is_mapping server_config /\ (is_active server_config = true -> well_formed server_config)) ->
  exists agents',
    server_loop servers agents = Ok agents' /\
    (forall name server_config l,
        In (name, server_config) servers -> is_active server_config = true ->
        has_launch server_config l -> agents' !! name = Some (handle_for l)) /\
    (forall name,
        (forall server_config, In (name, server_config) servers ->
                               is_active server_config = false) ->
        agents' !! name = agents !! name) /\
    ((forall name, In name (map fst servers) -> agents !! name = None) ->
     size agents' = size agents + length (active_entries servers)).
Proof.
  induction servers as [|[n c] rest IH]; intros agents Hnodup Hok.
  - exists agents. simpl. split; [done|]. split; [by intros|]. split; [done | intros; lia].
  - apply NoDup_cons in Hnodup as [Hfresh Hnodup]. simpl in Hfresh.
    assert (Hrest : forall name server_config, In (name, server_config) rest ->
              is_mapping server_config /\
              (is_active server_config = true -> well_formed server_config)).
    { intros name sc Hin. apply (Hok name). by right. }
    assert (Hn : forall server_config, In (n, server_config) rest -> False).
    { intros sc Hin. apply Hfresh. apply list_elem_of_In.
      change n with (fst (n, sc)). apply in_map. exact Hin. }
    destruct (Hok n c (or_introl eq_refl)) as [Hmap Hwf].
    destruct (is_active c) eqn:Hc.
    + destruct (Hwf eq_refl) as [l0 Hl0].
      destruct (IH (<[n := handle_for l0]> agents) Hnodup Hrest)
        as (agents' & Hloop & Hact & Hinact & Hsize).
      exists agents'. simpl. rewrite (server_round_well_formed agents n c l0 Hc Hl0). simpl.
      split; [exact Hloop|]. split; [|split].
      * intros name sc l [[= -> ->] | Hin] Hactive Hl.
        -- rewrite (Hinact name) by (intros sc' Hin'; destruct (Hn sc' Hin')).
           rewrite lookup_insert_eq. by rewrite (has_launch_unique sc l l0 Hl Hl0).
        -- by apply (Hact name sc).
      * intros name Hall.
        assert (name <> n) as Hne.
        { intros ->. specialize (Hall c (or_introl eq_refl)). congruence. }
        rewrite (Hinact name) by (intros sc Hin; apply Hall; by right).
        by rewrite lookup_insert_ne.
      * intros Hnone. rewrite (active_entries_cons_active n c rest Hc). simpl.
        rewrite Hsize.
        -- rewrite map_size_insert_None by (apply Hnone; by left). lia.
        -- intros name Hin. rewrite lookup_insert_ne.
           ++ apply Hnone. by right.
           ++ intros ->. apply Hfresh. by apply list_elem_of_In.
    + destruct (IH agents Hnodup Hrest) as (agents' & Hloop & Hact & Hinact & Hsize).
      exists agents'. simpl. rewrite (server_round_inactive agents n c Hmap Hc). simpl.
      split; [exact Hloop|]. split; [|split].
      * intros name sc l [[= -> ->] | Hin] Hactive Hl; [congruence | by apply (Hact name sc)].
      * intros name Hall. apply Hinact. intros sc Hin. apply Hall. by right.
      * intros Hnone. rewrite (active_entries_cons_inactive n c rest Hc).
        apply Hsize. intros name Hin. apply Hnone. by right.
Qed.

End ConfigFacts.

Module CreateAgentsSpec.
Import Py Mcp ConfigVocabulary ConfigScenarios ConfigFacts.

Lemma create_agents_from_loop config servers :
  subscript config "mcpServers" = Ok (JObj servers) ->
  create_agents_from config = server_loop servers ∅.
Proof. intros H. unfold create_agents_from. rewrite H. reflexivity. Qed.

(** C5.  For a configuration whose entries are mappings under distinct
    names and whose active entries carry command, args and instructions,
    [create_agents] returns one handle per entry whose active flag is
    true, built from that entry, and none for an entry whose flag is
    false or absent: the handles are as many as the active entries and
    every handle belongs to an active entry. *)
Theorem one_handle_per_active_entry (config : json) (servers : list (string * json)) :
  subscript config "mcpServers" = Ok (JObj servers) ->
  NoDup (map fst servers) ->
  (forall name server_config, In (name, server_config) servers ->
     is_mapping server_config /\ (is_active server_config = true -> well_formed server_config)) ->
  exists agents,
    create_agents_from config = Ok agents /\
    (forall name server_config,
        In (name, server_config) servers -> active_flag server_config = Some (JBool true) ->
        exists l, has_launch server_config l /\ agents !! name = Some (handle_for l)) /\
    (forall name server_config,
        In (name, server_config) servers ->
        active_flag server_config = Some (JBool false) \/ active_flag server_config = None ->
        agents !! name = None) /\
    size agents = length (active_entries servers) /\
    (forall name, is_Some (agents !! name) ->
       exists server_config, In (name, server_config) servers /\ is_active server_config = true).
Proof.
  intros Hconfig Hnodup Hok.
  destruct (server_loop_well_formed servers ∅ Hnodup Hok)
    as (agents & Hloop & Hact & Hinact & Hsize).
  exists agents. rewrite (create_agents_from_loop config servers Hconfig).
  split; [exact Hloop|]. split; [|split; [|split]].
  - intros name sc Hin Hflag.
    assert (is_active sc = true) as Hactive by (unfold is_active; by rewrite Hflag).
    destruct (Hok name sc Hin) as [_ Hwf]. destruct (Hwf Hactive) as [l Hl].
    exists l. split; [exact Hl|]. by apply (Hact name sc).
  - intros name sc Hin Hflag.
    assert (is_active sc = false) as Hinactive.
    { unfold is_active. by destruct Hflag as [-> | ->]. }
    rewrite (Hinact name); [apply lookup_empty|].
    intros sc' Hin'.
    assert (sc' = sc) as ->; [|done].
    clear -Hnodup Hin Hin'. induction servers as [|[n c] rest IH]; [done|].
    apply NoDup_cons in Hnodup as [Hfresh Hnodup]. simpl in Hfresh.
    assert (forall x, In (n, x) rest -> False) as Hn.
    { intros x Hx. apply Hfresh. apply list_elem_of_In.
      change n with (fst (n, x)). by apply in_map. }
    destruct Hin as [Heq | Hin], Hin' as [Heq' | Hin'].
    + congruence.
    + injection Heq as -> ->. destruct (Hn _ Hin').
    + injection Heq' as -> ->. destruct (Hn _ Hin).
    + by apply IH.
  - rewrite Hsize; [by rewrite map_size_empty | intros; apply lookup_empty].
  - intros name [a Ha].
    destruct (active_entry_or_none name servers) as [Hex | Hnone]; [exact Hex|].
    rewrite (Hinact name Hnone), lookup_empty in Ha. discriminate Ha.
Qed.

(** The scenario of the specification: calc is active, web is not. *)
Lemma one_handle_per_active_entry_witness :
  exists agents,
    create_agents_from (JObj [("mcpServers", JObj calc_and_web)]) = Ok agents /\
    agents !! "calc" = Some (handle_for (Launch "tool-calc" [] (JStr ""))) /\
    agents !! "web" = None /\
    size agents = 1.
Proof.
  destruct (one_handle_per_active_entry
              (JObj [("mcpServers", JObj calc_and_web)]) calc_and_web)
    as (agents & Hagents & Htrue & Hfalse & Hsize & _).
  - reflexivity.
  - apply NoDup_cons. split; [|apply NoDup_cons; split; [|apply NoDup_nil_2]];
      rewrite list_elem_of_In; simpl; intuition discriminate.
  - intros name sc [[= <- <-] | [[= <- <-] | []]].
    + split; [by eexists|]. intros _. exists (Launch "tool-calc" [] (JStr "")).
      eexists. repeat split; reflexivity.
    + split; [by eexists|]. intros H. vm_compute in H. discriminate H.
  - exists agents. split; [exact Hagents|]. split; [|split].
    + destruct (Htrue "calc" _ (or_introl eq_refl) eq_refl) as (l & Hl & Hcalc).
      rewrite Hcalc. f_equal. f_equal.
      apply (has_launch_unique _ _ _ Hl).
      eexists. repeat split; reflexivity.
    + apply (Hfalse "web" _ (or_intror (or_introl eq_refl))). by left.
    + exact Hsize.
Defined.

(** C6 (as amended).  Entries whose active flag is false or absent are
    skipped whatever else they hold: the load is the load of the active
    entries alone, and it completes when every active entry is
    well-formed.  An active entry that lacks command, args or
    instructions is not skipped: the whole load ends with an exception. *)
Theorem inactive_skipped_active_must_be_well_formed
    (config : json) (servers : list (string * json)) :
  subscript config "mcpServers" = Ok (JObj servers) ->
  (forall name server_config, In (name, server_config) servers -> is_mapping server_config) ->
  create_agents_from config = server_loop (active_entries servers) ∅ /\
  (NoDup (map fst servers) ->
   (forall name server_config, In (name, server_config) servers ->
      is_active server_config = true -> well_formed server_config) ->
   exists agents,
     create_agents_from config = Ok agents /\
     forall name server_config l,
       In (name, server_config) servers -> is_active server_config = true ->
       has_launch server_config l -> agents !! name = Some (handle_for l)) /\
  ((exists name server_config,
      In (name, server_config) servers /\ is_active server_config = true /\
      lacks_field server_config) ->
   exists e, create_agents_from config = Raise e).
Proof.
  intros Hconfig Hmap. rewrite (create_agents_from_loop config servers Hconfig).
  split; [by apply server_loop_active_entries|]. split.
  - intros Hnodup Hwf.
    destruct (server_loop_well_formed servers ∅ Hnodup) as (agents & Hloop & Hact & _).
    { intros name sc Hin. split; [by apply (Hmap name) | by apply (Hwf name)]. }
    exists agents. split; [exact Hloop | exact Hact].
  - intros (name & sc & Hin & Hactive & Hlack).
    by apply (server_loop_lacks_field servers ∅ name sc).
Qed.

Lemma inactive_skipped_active_must_be_well_formed_witness :
  create_agents_from (JObj [("mcpServers", JObj broken_then_calc)])
    = server_loop (active_entries broken_then_calc) ∅ /\
  exists e, create_agents_from (JObj [("mcpServers", JObj broken_then_calc)]) = Raise e.
Proof.
  destruct (inactive_skipped_active_must_be_well_formed
              (JObj [("mcpServers", JObj broken_then_calc)]) broken_then_calc)
    as (Hskip & _ & Habort).
  - reflexivity.
  - intros name sc [[= <- <-] | [[= <- <-] | []]]; by eexists.
  - split; [exact Hskip|]. apply Habort.
    exists "broken", (JObj [("args", JList []); ("active", JBool true);
                            ("instructions", JStr "")]).
    split; [by left|]. split; [reflexivity|].
    eexists _, "command". split; [reflexivity|]. split; [by left | reflexivity].
Defined.

(** C6, as stated, fails: an active entry without a command makes the
    load end with a KeyError, and the well-formed entry calc after it is
    never processed. *)
Lemma malformed_active_entry_aborts_load :
  create_agents_from (JObj [("mcpServers", JObj broken_then_calc)])
    = Raise (Exn KeyError "'command'") /\
  ~ returns (create_agents_from (JObj [("mcpServers", JObj broken_then_calc)])).
Proof.
  split; [reflexivity|]. intros [agents H]. vm_compute in H. discriminate H.
Qed.

End CreateAgentsSpec.

(** ** The chatbot *)

Module ChatbotFacts.
Import Py Chatbot ChatVocabulary.

Lemma set_memory_self c : set_memory (memory c) c = c.
Proof. by destruct c. Qed.

Lemma set_memory_twice l l' c : set_memory l (set_memory l' c) = set_memory l c.
Proof. by destruct c. Qed.

Lemma state_eta s : State (self s) (log s) (calls s) = s.
Proof. by destruct s. Qed.

Lemma kept_app l1 l2 : kept (l1 ++ l2) = kept l1 ++ kept l2.
Proof. unfold kept. apply omap_app. Qed.

Lemma final_content_app l1 l2 rc :
  final_content (l1 ++ l2) rc = final_content l2 (final_content l1 rc).
Proof.
  revert rc. induction l1 as [|message l1 IH]; intros rc; simpl; [done|].
  destruct (bool_decide (kind message = AI) && negb (String.eqb (content message) ""));
    apply IH.
Qed.

(** The loop of [chat] over the agent's answer never raises; it appends
    the kept messages and yields the last assistant text. *)
Lemma collect_spec messages : forall response_content s,
  collect messages response_content s =
    (Ok (final_content messages response_content),
     State (set_memory (memory (self s) ++ kept messages) (self s)) (log s) (calls s)).
Proof.
  induction messages as [|message rest IH]; intros rc s.
  - simpl. unfold mret, st_mret, st_ret. rewrite app_nil_r, set_memory_self, state_eta.
    reflexivity.
  - simpl. unfold kept in *. simpl. unfold kept_message at 1.
    destruct (bool_decide (kind message = AI) && negb (String.eqb (content message) ""));
      [|destruct (bool_decide (kind message = Tool)
                  && negb (String.eqb (content message) ""))].
    + unfold mbind, st_mbind, st_bind, add_message, on_self, st_modify. simpl.
      rewrite IH. simpl. destruct (self s); simpl. by rewrite <- app_assoc.
    + unfold mbind, st_mbind, st_bind, add_message, on_self, st_modify. simpl.
      rewrite IH. simpl. destruct (self s); simpl. by rewrite <- app_assoc.
    + apply IH.
Qed.

End ChatbotFacts.

Module ChatbotSpec.
Import Py Chatbot ChatVocabulary ChatbotFacts.

#[local] Ltac st_unfold :=
  unfold mbind, st_mbind, st_bind, st_try, on_self, get_self, get_history, add_message,
    app_logger, external, when, base_cleanup, st_modify, st_raise, st_lift,
    mret, st_mret, st_ret;
  simpl.

#[local] Arguments collect : simpl never.

(** C9.  [clear_history] empties the message history and changes nothing
    else: connection fields, model and settings keep their values,
    nothing is logged and no call leaves the process, so no handle is
    closed. *)
Theorem clear_history_frame (s : state) :
  let run := clear_history s in
  run.1 = Ok tt /\
  memory (self run.2) = [] /\
  same_connection (self s) (self run.2) /\
  same_settings (self s) (self run.2) /\
  log run.2 = log s /\
  calls run.2 = calls s.
Proof.
  unfold clear_history, same_connection, same_settings. st_unfold.
  destruct s as [c l k]. simpl. destruct c. simpl. repeat split.
Qed.

Section Collaborators.

Variable OLLAMA_HOST : option string.
Variable client_aenter : stdio_client -> list ext_call -> res (stream * stream).
Variable session_aenter : ClientSession -> list ext_call -> res unit.
Variable session_initialize : ClientSession -> list ext_call -> res unit.
Variable load_mcp_tools : ClientSession -> list ext_call -> res (list mcp_tool).
Variable create_react_agent : ChatOllama -> list mcp_tool -> list ext_call -> res react_agent.
Variable ainvoke :
  react_agent -> list base_message -> list ext_call -> res (option (list base_message)).
Variable session_aexit : ClientSession -> list ext_call -> res unit.
Variable client_aexit : stdio_client -> list ext_call -> res unit.
Variable history_is_live : bool.

#[local] Abbreviation initialize :=
  (initialize client_aenter session_aenter session_initialize load_mcp_tools
     create_react_agent).
#[local] Abbreviation chat :=
  (chat client_aenter session_aenter session_initialize load_mcp_tools
     create_react_agent ainvoke history_is_live).
#[local] Abbreviation cleanup := (cleanup session_aexit client_aexit).

(** *** Shutdown *)

(** On a released chatbot [cleanup] does nothing at all. *)
Lemma cleanup_released s : released (self s) -> cleanup s = (Ok tt, s).
Proof.
  intros (Hm & Hc & Hs & Hr & Hw & Ht & Ha & Hy).
  destruct s as [c l k]. destruct c. simpl in *. subst.
  unfold Chatbot.cleanup. st_unfold. reflexivity.
Qed.

(** Where a completed [cleanup] ends. *)
Lemma cleanup_reaches_released s s' : cleanup s = (Ok tt, s') -> released (self s').
Proof.
  unfold Chatbot.cleanup, released. st_unfold.
  destruct (mcp_session (self s)) as [session|]; simpl.
  - destruct (session_aexit session (calls s)) as [[]|e]; simpl.
    + destruct (mcp_client (self s)) as [client|]; simpl.
      * destruct (client_aexit client _) as [[]|e]; simpl.
        -- intros [= <-]. simpl. repeat split.
        -- destruct (is_Exception e); simpl; [|done]. intros [= <-]. simpl. repeat split.
      * intros [= <-]. simpl. repeat split.
    + destruct (is_Exception e); simpl; [|done]. intros [= <-]. simpl. repeat split.
  - intros [= <-]. simpl. repeat split.
Qed.

(** The only exceptions that leave [cleanup] are those that do not derive
    from [Exception]. *)
Lemma cleanup_raises_no_Exception s s' e :
  cleanup s = (Raise e, s') -> is_Exception e = false.
Proof.
  unfold Chatbot.cleanup. st_unfold.
  destruct (mcp_session (self s)) as [session|]; simpl; [|done].
  destruct (session_aexit session (calls s)) as [[]|e0]; simpl.
  - destruct (mcp_client (self s)) as [client|]; simpl; [|done].
    destruct (client_aexit client _) as [[]|e0]; simpl; [done|].
    destruct (is_Exception e0) eqn:He0; simpl; [done|]. by intros [= <- _].
  - destruct (is_Exception e0) eqn:He0; simpl; [done|]. by intros [= <- _].
Qed.

(** When both exits succeed, session and client were closed, in this
    order. *)
Lemma cleanup_closes_session_and_client s session client :
  mcp_session (self s) = Some session -> mcp_client (self s) = Some client ->
  session_aexit session (calls s) = Ok tt ->
  client_aexit client (calls s ++ [SessionExit session]) = Ok tt ->
  calls (cleanup s).2 = calls s ++ [SessionExit session; ClientExit client].
Proof.
  intros Hs Hc Hse Hce. unfold Chatbot.cleanup. st_unfold.
  rewrite Hs. simpl. rewrite Hse. simpl. rewrite Hc. simpl. rewrite Hce. simpl.
  by rewrite <- app_assoc.
Qed.

(** C8.  [cleanup] is idempotent.  From every state a first call raises
    no error (only a signal that does not derive from [Exception] can
    interrupt it); once it has completed the chatbot is released (history
    empty, model, session, streams, tools and agent dropped, ready
    false), and a second call then completes without error and leaves
    exactly the same state: nothing more is logged and no further call
    leaves the process. *)
Theorem cleanup_idempotent (s : state) :
  let once := cleanup s in
  (forall e, once.1 = Raise e -> is_Exception e = false) /\
  (once.1 = Ok tt ->
   released (self once.2) /\ cleanup once.2 = (Ok tt, once.2)).
Proof.
  simpl. destruct (cleanup s) as [r s1] eqn:H. simpl. split.
  - intros e ->. by apply (cleanup_raises_no_Exception s s1).
  - intros ->. pose proof (cleanup_reaches_released s s1 H) as Hrel.
    split; [exact Hrel | by apply cleanup_released].
Qed.

(** *** Startup *)

Lemma for_each_log (f : mcp_tool -> string) (tools : list mcp_tool) : forall s,
  for_each tools (fun tool => app_logger INFO (f tool)) s =
    (Ok tt, State (self s) (log s ++ map (fun tool => (INFO, f tool)) tools) (calls s)).
Proof.
  induction tools as [|tool rest IH]; intros s.
  - simpl. unfold mret, st_mret, st_ret. by rewrite app_nil_r, state_eta.
  - simpl. st_unfold. rewrite IH. simpl. by rewrite <- app_assoc.
Qed.

#[local] Arguments for_each : simpl never.

#[local] Ltac four := split; [|split; [|split]].

#[local] Ltac launch := intros; congruence.

#[local] Ltac handshake :=
  let Hs := fresh "Hs" in
  intros ? ? Hs; first [discriminate Hs | injection Hs as <-; simpl; congruence].

#[local] Ltac caught e :=
  let He := fresh "He" in
  destruct (is_Exception e) eqn:He; simpl;
  [ four;
    [ launch | handshake
    | intros ? [= <-] _; split; [reflexivity | apply last_snoc] | done ]
  | four;
    [ launch | handshake | intros ? [= <-] ?; congruence | done ] ].

(** C1 (as amended).  [initialize] hands no per-provider outcome to its
    caller.  When the provider fails to launch (entering the client
    context raises) or to handshake (the session's initialisation
    raises), the same exception leaves [initialize]; whenever an
    [Exception] leaves it, ready is false and the failure was logged as
    an error just before.  It returns only with ready set. *)
Theorem initialize_reraises (s : state) :
  let client := mk_stdio_client (mcp_server_params (self s)) in
  let run := initialize s in
  (forall e, client_aenter client (calls s) = Raise e -> run.1 = Raise e) /\
  (forall streams e,
      client_aenter client (calls s) = Ok streams ->
      let session := mk_ClientSession streams.1 streams.2 in
      session_aenter session (calls s ++ [ClientEnter client]) = Ok tt ->
      session_initialize session ((calls s ++ [ClientEnter client]) ++ [SessionEnter session])
        = Raise e ->
      run.1 = Raise e) /\
  (forall e, run.1 = Raise e -> is_Exception e = true ->
     ready (self run.2) = false /\
     last (log run.2) = Some (ERROR, "Failed to initialize OllamaMCP chatbot: " +:+ exn_str e)) /\
  (run.1 = Ok tt -> ready (self run.2) = true).
Proof.
  unfold Chatbot.initialize.
  unfold mbind, st_mbind, st_bind, st_try, on_self, get_self, add_message,
    external, when, st_modify, st_raise, mret, st_mret, st_ret.
  simpl.
  set (client := mk_stdio_client (mcp_server_params (self s))).
  destruct (verbose (self s)); simpl.
  all: destruct (client_aenter client (calls s)) as [[r w]|e1] eqn:H1; simpl;
    [|caught e1].
  all: destruct (session_aenter (mk_ClientSession r w) _) as [[]|e2] eqn:H2; simpl;
    [|caught e2].
  all: destruct (session_initialize (mk_ClientSession r w) _) as [[]|e3] eqn:H3; simpl;
    [|caught e3].
  all: destruct (load_mcp_tools (mk_ClientSession r w) _) as [tools|e4]; simpl;
    [|caught e4].
  all: rewrite ?for_each_log; simpl.
  all: match goal with
       | |- context [create_react_agent ?m ?t ?k] =>
           destruct (create_react_agent m t k) as [a|e5]; simpl; [|caught e5]
       end.
  all: destruct (nonempty (system_message (self s))); simpl.
  all: four; [launch | handshake | done | done].
Qed.

(** *** Turns *)

(** A ready chatbot does not call [initialize] again. *)
Lemma chat_ready s message :
  ready (self s) = true ->
  chat message s =
    st_try
      (agent_response ←
         match agent (self s) with
         | Some a =>
             external (Ainvoke a (agent_input history_is_live (self s) message))
               (ainvoke a (agent_input history_is_live (self s) message))
         | None =>
             st_raise (Exn AttributeError "'NoneType' object has no attribute 'ainvoke'")
         end;
       collect (default [] agent_response) "")
      (fun e =>
         _ ← app_logger ERROR ("Error processing message: " +:+ exn_str e);
         mret ("Error processing message: " +:+ exn_str e))
      (State (set_memory (memory (self s) ++ [HumanMessage message]) (self s)) (log s) (calls s)).
Proof.
  intros Hready. unfold Chatbot.chat.
  unfold mbind at 1, st_mbind at 1, st_bind at 1, get_self at 1. rewrite Hready. simpl.
  unfold mbind at 1, st_mbind at 1, st_bind at 1. simpl.
  unfold mbind at 1, st_mbind at 1, st_bind at 1, get_self at 1. rewrite Hready. simpl.
  unfold agent_input. destruct s as [c l k]. destruct c. simpl in *.
  destruct history_is_live; reflexivity.
Qed.

(** The only exceptions that leave [chat] on a ready chatbot are those
    that do not derive from [Exception]. *)
Lemma chat_ready_raises_no_Exception s message e :
  ready (self s) = true -> (chat message s).1 = Raise e -> is_Exception e = false.
Proof.
  intros Hready. rewrite (chat_ready s message Hready). st_unfold.
  destruct (agent (self s)) as [a|]; simpl; [|done].
  destruct (ainvoke a _ (calls s)) as [reply|e0]; simpl.
  - rewrite collect_spec. simpl. done.
  - destruct (is_Exception e0) eqn:He0; simpl; [done|]. by intros [= <-].
Qed.

(** C2 (as amended).  On a ready chatbot, every [Exception] that the
    agent's invocation raises (an error of an invoked capability
    included) is caught inside [chat]: the call returns the text Error
    processing message: followed by the error, and logs it.  The text
    goes to the caller only: the history gains the user's message and
    nothing else. *)
Theorem chat_turns_failure_into_text (s : state) (message : string) (a : react_agent)
    (e : exn) :
  ready (self s) = true ->
  agent (self s) = Some a ->
  ainvoke a (agent_input history_is_live (self s) message) (calls s) = Raise e ->
  is_Exception e = true ->
  chat message s =
    (Ok ("Error processing message: " +:+ exn_str e),
     State (set_memory (memory (self s) ++ [HumanMessage message]) (self s))
       (log s ++ [(ERROR, "Error processing message: " +:+ exn_str e)])
       (calls s ++ [Ainvoke a (agent_input history_is_live (self s) message)])).
Proof.
  intros Hready Hagent Hraise He. rewrite (chat_ready s message Hready).
  unfold st_try, mbind, st_mbind, st_bind. rewrite Hagent.
  unfold external at 1. simpl. rewrite Hraise. rewrite He. reflexivity.
Qed.

(** The answer of the agent, when it gives one. *)
Lemma chat_answer s message a reply :
  ready (self s) = true ->
  agent (self s) = Some a ->
  ainvoke a (agent_input history_is_live (self s) message) (calls s) = Ok reply ->
  chat message s =
    (Ok (final_content (default [] reply) ""),
     State (set_memory (memory (self s) ++ [HumanMessage message] ++ kept (default [] reply))
              (self s))
       (log s)
       (calls s ++ [Ainvoke a (agent_input history_is_live (self s) message)])).
Proof.
  intros Hready Hagent Hreply. rewrite (chat_ready s message Hready).
  unfold st_try, mbind, st_mbind, st_bind. rewrite Hagent.
  unfold external at 1. simpl. rewrite Hreply. rewrite collect_spec. simpl.
  by rewrite set_memory_twice, <- app_assoc.
Qed.

(** The last message of the answer is an assistant message with text. *)
Lemma chat_final_answer s message a pre final :
  ready (self s) = true ->
  agent (self s) = Some a ->
  ainvoke a (agent_input history_is_live (self s) message) (calls s)
    = Ok (Some (pre ++ [final])) ->
  kind final = AI -> content final <> "" ->
  let run := chat message s in
  run.1 = Ok (content final) /\
  memory (self run.2) =
    memory (self s) ++ [HumanMessage message] ++ kept pre ++ [AIMessage (content final)].
Proof.
  intros Hready Hagent Hreply Hkind Htext. simpl.
  rewrite (chat_answer s message a _ Hready Hagent Hreply). simpl.
  assert (bool_decide (kind final = AI) && negb (String.eqb (content final) "") = true) as Hk.
  { apply andb_true_iff. split; [by apply bool_decide_eq_true|].
    apply negb_true_iff. by apply String.eqb_neq. }
  split.
  - rewrite final_content_app. simpl. by rewrite Hk.
  - destruct (self s); simpl. rewrite kept_app. unfold kept at 2. simpl.
    unfold kept_message. by rewrite Hk.
Qed.

End Collaborators.

Import ChatScenarios.

Lemma cleanup_idempotent_witness :
  released (self (cleanup session_ok client_ok (start connected)).2) /\
  cleanup session_ok client_ok (cleanup session_ok client_ok (start connected)).2
    = (Ok tt, (cleanup session_ok client_ok (start connected)).2).
Proof.
  destruct (cleanup_idempotent session_ok client_ok (start connected)) as [_ H].
  apply H. reflexivity.
Defined.

(** A session whose exit fails is dropped all the same, and the client is
    never asked to exit. *)
Example cleanup_after_failed_exit :
  cleanup session_exit_fails client_ok (start connected) =
    (Ok tt,
     State (Chatbot "llama3.2" None false [] "http://localhost:11434" (Float "0.7")
              (Float "0.9") None "uvx" ["mcp-server-calculator"] calculator_params
              (Some (mk_stdio_client calculator_params)) None None None None None false)
       [(ERROR, "Error cleaning up MCP session: Attempted to exit cancel scope in a different task")]
       [SessionExit (mk_ClientSession (Stream 0) (Stream 1))]).
Proof. reflexivity. Qed.

(** C1, as stated, fails: when the provider's executable cannot be
    started, [initialize] does not return an outcome; the launch error
    leaves it. *)
Lemma initialize_propagates_launch_failure :
  (initialize enter_fails session_ok session_ok tools_ok agent_ok (start fresh)).1
    = Raise (Exn (ForeignError "FileNotFoundError")
               "[Errno 2] No such file or directory: 'uvx'") /\
  ~ returns (initialize enter_fails session_ok session_ok tools_ok agent_ok (start fresh)).1.
Proof.
  split; [reflexivity|]. intros [v Hv]. vm_compute in Hv. discriminate Hv.
Qed.

Lemma initialize_reraises_witness :
  (initialize enter_fails session_ok session_ok tools_ok agent_ok (start fresh)).1
    = Raise (Exn (ForeignError "FileNotFoundError")
               "[Errno 2] No such file or directory: 'uvx'") /\
  ready (self (initialize enter_fails session_ok session_ok tools_ok agent_ok
                 (start fresh)).2) = false /\
  ready (self (initialize enter_ok session_ok session_ok tools_ok agent_ok
                 (start fresh)).2) = true.
Proof.
  destruct (initialize_reraises enter_fails session_ok session_ok tools_ok agent_ok
              (start fresh)) as (Hlaunch & _ & Hexn & _).
  destruct (initialize_reraises enter_ok session_ok session_ok tools_ok agent_ok
              (start fresh)) as (_ & _ & _ & Hok).
  split; [apply Hlaunch; reflexivity|].
  split; [|apply Hok; reflexivity].
  apply (Hexn (Exn (ForeignError "FileNotFoundError")
                 "[Errno 2] No such file or directory: 'uvx'")); reflexivity.
Defined.

Lemma chat_turns_failure_into_text_witness :
  chat enter_ok session_ok session_ok tools_ok agent_ok divides_by_zero false
    "what is 1/0?" (start connected) =
    (Ok "Error processing message: division by zero",
     State (set_memory [HumanMessage "what is 1/0?"] connected)
       [(ERROR, "Error processing message: division by zero")]
       [Ainvoke (ReactAgent 0) [HumanMessage "what is 1/0?"]]).
Proof.
  apply (chat_turns_failure_into_text enter_ok session_ok session_ok tools_ok agent_ok
           divides_by_zero false (start connected) "what is 1/0?" (ReactAgent 0)
           (Exn (ForeignError "ZeroDivisionError") "division by zero"));
    reflexivity.
Defined.

(** C2, as stated, fails: the error text of a failed invocation is
    returned to the caller of [chat] but is not shown to the model: the
    history, which is all the agent is given on the next turn, holds the
    user's message only. *)
Lemma chat_error_text_not_in_history :
  let run := chat enter_ok session_ok session_ok tools_ok agent_ok divides_by_zero false
               "what is 1/0?" (start connected) in
  run.1 = Ok "Error processing message: division by zero" /\
  memory (self run.2) = [HumanMessage "what is 1/0?"] /\
  absent_from "Error processing message: division by zero" (memory (self run.2)) /\
  absent_from "division by zero" (memory (self run.2)).
Proof.
  simpl. split; [reflexivity|]. split; [reflexivity|].
  split; repeat constructor; discriminate.
Qed.

(** C4, as stated, fails: a reply without tool requests whose text is
    empty is not appended to the history. *)
Lemma empty_reply_not_appended :
  let run := chat enter_ok session_ok session_ok tools_ok agent_ok answers_nothing false
               "hello" (start connected) in
  run.1 = Ok "" /\
  memory (self run.2) = [HumanMessage "hello"] /\
  ~ In (AIMessage "") (memory (self run.2)).
Proof.
  simpl. split; [reflexivity|]. split; [reflexivity|].
  intros [H | []]. discriminate H.
Qed.

(** C4 (as amended).  In [chat], when the last message of the agent's
    answer is an assistant message with text, that text is returned and
    an assistant message holding it is the last entry appended to the
    history; it equals the reply itself when the reply carries no tool
    requests.  An assistant message without text is not appended.
    [process_prompt] keeps no history: for a reply without tool calls it
    returns [None], not the reply's text. *)
Theorem plain_reply_is_returned :
  (forall client_aenter session_aenter session_initialize load_mcp_tools create_react_agent
          ainvoke history_is_live (s : state) (message : string) (a : react_agent)
          (pre : list base_message) (final : base_message),
      ready (self s) = true ->
      agent (self s) = Some a ->
      ainvoke a (agent_input history_is_live (self s) message) (calls s)
        = Ok (Some (pre ++ [final])) ->
      kind final = AI -> content final <> "" ->
      let run := chat client_aenter session_aenter session_initialize load_mcp_tools
                   create_react_agent ainvoke history_is_live message s in
      run.1 = Ok (content final) /\
      memory (self run.2) =
        memory (self s) ++ [HumanMessage message] ++ kept pre ++ [AIMessage (content final)] /\
      (tool_calls final = [] -> tool_call_id final = None ->
       AIMessage (content final) = final)) /\
  (forall (message : base_message),
      kind message = AI -> content message = "" -> kept_message message = None) /\
  (forall ticker_info ticker_last_price requests_request ollama_chat
          (prompt model : string) (reply : ToolUse.chat_response),
      ollama_chat model [ToolUse.ChatMessage "user" prompt] ToolUse.tools = Ok reply ->
      ToolUse.tool_calls reply = None \/ ToolUse.tool_calls reply = Some [] ->
      ToolUse.process_prompt ticker_info ticker_last_price requests_request ollama_chat
        prompt model [] =
        (Ok VNone,
         [ToolUse.Printed ("Prompt: " +:+ prompt);
          ToolUse.BackendCall model [ToolUse.ChatMessage "user" prompt]])).
Proof.
  split; [|split].
  - intros ? ? ? ? ? ? ? s message a pre final Hready Hagent Hreply Hkind Htext.
    destruct (chat_final_answer client_aenter session_aenter session_initialize
                load_mcp_tools create_react_agent ainvoke history_is_live
                s message a pre final Hready Hagent Hreply Hkind Htext) as [Hres Hmem].
    split; [exact Hres|]. split; [exact Hmem|].
    intros Hcalls Hid. destruct final as [k c i t]. simpl in *. by subst.
  - intros message Hkind Htext. unfold kept_message. rewrite Hkind, Htext. reflexivity.
  - intros ? ? ? ? prompt model reply Hreply Hcalls.
    by apply (ProcessPromptSpec.process_prompt_plain_reply _ _ _ _ prompt model reply).
Qed.

Lemma plain_reply_is_returned_witness :
  let run := chat enter_ok session_ok session_ok tools_ok agent_ok answers_96 false
               "what is (3 + 5) x 12?" (start connected) in
  run.1 = Ok "96" /\
  memory (self run.2) = [HumanMessage "what is (3 + 5) x 12?"; AIMessage "96"].
Proof.
  destruct plain_reply_is_returned as [Hchat _].
  destruct (Hchat enter_ok session_ok session_ok tools_ok agent_ok answers_96 false
              (start connected) "what is (3 + 5) x 12?" (ReactAgent 0) [] (AIMessage "96"))
    as (Hres & Hmem & _); try reflexivity; [discriminate|].
  split; [exact Hres | exact Hmem].
Defined.

End ChatbotSpec.

(** ** More on the tool manager *)

Module ToolUseFacts.
Import Py ToolUse ToolVocabulary ToolDemo.

Lemma filter_negb_nil {A : Type} (f : A -> bool) (l : list A) :
  forallb f l = true -> filter (fun x => negb (f x)) l = [].
Proof.
  induction l as [|x l IH]; simpl; [done|].
  intros [Hx Hl]%andb_true_iff. rewrite filter_cons.
  destruct (decide (negb (f x))) as [Hn|_]; [|by apply IH].
  rewrite Hx in Hn. destruct Hn.
Qed.

Lemma filter_negb_cons {A : Type} (f : A -> bool) (l : list A) :
  forallb f l = false -> exists x rest, filter (fun x => negb (f x)) l = x :: rest /\ f x = false.
Proof.
  induction l as [|x l IH]; simpl; [done|].
  intros H. rewrite filter_cons.
  destruct (f x) eqn:Hx; simpl in *.
  - destruct (decide False) as [[]|_]. by apply IH.
  - destruct (decide True) as [_|Hn]; [|by destruct Hn]. eexists _, _. by split.
Qed.

Lemma has_key_lookup k d : has_key k d = true -> exists v, lookup_kw k d = Some v.
Proof. unfold has_key. destruct (lookup_kw k d) as [v|]; [by exists v | done]. Qed.

(** Keywords that do not fit make the binding raise a [TypeError]. *)
Lemma bind_kwargs_misfit qualname params var_kw d :
  fits_signature params var_kw d = false ->
  exists msg, bind_kwargs qualname params var_kw d = Raise (Exn TypeError msg).
Proof.
  unfold fits_signature, bind_kwargs, kwargs. intros H.
  destruct (forallb (fun p => has_key p d) params) eqn:Hp; simpl in H.
  - destruct var_kw; [done|]. simpl in H.
    destruct (filter_negb_cons _ d H) as ([k v] & rest & Heq & _).
    cbv beta in Heq. rewrite Heq. by eexists.
  - destruct (filter_negb_cons _ params Hp) as (p & rest & Heq & _).
    cbv beta in Heq. rewrite Heq.
    match goal with
    | |- context [match ?extra with [] => _ | _ :: _ => _ end] =>
        destruct extra as [|[k v] extra']
    end; [by eexists|].
    destruct var_kw; by eexists.
Qed.

(** Keywords that fit are bound: the parameters' values in order, and
    what is left for the catch-all. *)
Lemma bind_kwargs_fit qualname params var_kw d :
  fits_signature params var_kw d = true ->
  bind_kwargs qualname params var_kw d =
    Ok (omap (fun p => lookup_kw p d) params,
        filter (fun kv => negb (existsb (String.eqb kv.1) params)) d).
Proof.
  unfold fits_signature, bind_kwargs, kwargs. intros [Hp Hk]%andb_true_iff.
  pose proof (filter_negb_nil _ params Hp) as Hmiss. cbv beta in Hmiss. rewrite Hmiss.
  destruct var_kw; simpl in Hk.
  - match goal with
    | |- context [match ?extra with [] => _ | _ :: _ => _ end] =>
        destruct extra as [|[k v] extra']
    end; reflexivity.
  - pose proof (filter_negb_nil _ d Hk) as Hextra. cbv beta in Hextra. by rewrite Hextra.
Qed.

(** *** Price attributes *)

Lemma first_price_found info attrs v :
  first_price info attrs = Some v ->
  v <> VNone /\ exists attr, In attr attrs /\ lookup_kw attr info = Some v.
Proof.
  induction attrs as [|attr rest IH]; simpl; [done|].
  destruct (lookup_kw attr info) as [w|] eqn:Hw.
  - destruct (decide (w = VNone)) as [->|Hne].
    + intros H. destruct (IH H) as (Hv & a & Hin & Ha). split; [done|]. exists a. tauto.
    + intros [= <-]. split; [done|]. exists attr. tauto.
  - intros H. destruct (IH H) as (Hv & a & Hin & Ha). split; [done|]. exists a. tauto.
Qed.

Lemma first_price_skips info pre attrs :
  (forall a, In a pre -> lookup_kw a info = None \/ lookup_kw a info = Some VNone) ->
  first_price info (pre ++ attrs) = first_price info attrs.
Proof.
  induction pre as [|a pre IH]; intros Hpre; simpl; [done|].
  destruct (Hpre a (or_introl eq_refl)) as [-> | ->].
  - apply IH. intros a' Ha'. apply Hpre. by right.
  - destruct (decide (VNone = VNone)); [|done]. apply IH. intros a' Ha'. apply Hpre. by right.
Qed.

Lemma first_price_hit info attr rest v :
  lookup_kw attr info = Some v -> v <> VNone -> first_price info (attr :: rest) = Some v.
Proof. intros Ha Hv. simpl. rewrite Ha. by destruct (decide (v = VNone)). Qed.

Lemma first_price_none info attrs :
  (forall a, In a attrs -> lookup_kw a info = None \/ lookup_kw a info = Some VNone) ->
  first_price info attrs = None.
Proof.
  intros H. rewrite <- (app_nil_r attrs). by rewrite (first_price_skips info attrs [] H).
Qed.

(** *** Keywords of a web request *)

Lemma lookup_kw_app_l k d e v :
  lookup_kw k d = Some v -> lookup_kw k (d ++ e) = Some v.
Proof.
  induction d as [|[k' w] d IH]; simpl; [done|].
  destruct (String.eqb k k'); [done | exact IH].
Qed.

Lemma lookup_kw_app_r k d e :
  lookup_kw k d = None -> lookup_kw k (d ++ e) = lookup_kw k e.
Proof.
  induction d as [|[k' w] d IH]; simpl; [done|].
  destruct (String.eqb k k'); [done | exact IH].
Qed.

Lemma has_key_false k d : has_key k d = false -> lookup_kw k d = None.
Proof. unfold has_key. by destruct (lookup_kw k d). Qed.

(** The keywords handed to the library complete those of the caller. *)
Lemma request_keywords_complete (kw : kwargs) :
  let kw1 := if has_key "headers" kw then kw
             else kw ++ [("headers", VDict [("User-Agent", default_user_agent)])] in
  let kw2 := if has_key "timeout" kw1 then kw1 else kw1 ++ [("timeout", VInt 10)] in
  completes kw kw2.
Proof.
  simpl. unfold completes.
  destruct (has_key "headers" kw) eqn:Hh.
  - destruct (has_key "timeout" kw) eqn:Ht.
    + repeat split; try done.
    + pose proof (has_key_false _ _ Ht) as Hnone.
      repeat split; try done.
      * unfold has_key in *. destruct (lookup_kw "headers" kw) as [h|] eqn:Hl; [|done].
        by rewrite (lookup_kw_app_l _ _ _ _ Hl).
      * unfold has_key. by rewrite (lookup_kw_app_r _ _ _ Hnone).
      * intros key v Hv. by apply lookup_kw_app_l.
      * intros _. by rewrite (lookup_kw_app_r _ _ _ Hnone).
  - pose proof (has_key_false _ _ Hh) as Hnoh.
    assert (lookup_kw "headers"
              (kw ++ [("headers", VDict [("User-Agent", default_user_agent)])])
            = Some (VDict [("User-Agent", default_user_agent)])) as Hh1.
    { by rewrite (lookup_kw_app_r _ _ _ Hnoh). }
    destruct (has_key "timeout" (kw ++ _)) eqn:Ht1.
    + repeat split; try done.
      * unfold has_key. by rewrite Hh1.
      * intros key v Hv. by apply lookup_kw_app_l.
      * intros Ht. unfold has_key in Ht1.
        rewrite (lookup_kw_app_r "timeout" kw _ (has_key_false _ _ Ht)) in Ht1.
        simpl in Ht1. discriminate Ht1.
    + pose proof (has_key_false _ _ Ht1) as Hnot.
      repeat split.
      * unfold has_key. by rewrite (lookup_kw_app_l _ _ _ _ Hh1).
      * unfold has_key. by rewrite (lookup_kw_app_r _ _ _ Hnot).
      * intros key v Hv. apply lookup_kw_app_l. by apply lookup_kw_app_l.
      * intros _. by rewrite (lookup_kw_app_r _ _ _ Hnot).
      * intros _. by apply lookup_kw_app_l.
Qed.

End ToolUseFacts.

Module ToolUseExtras.
Import Py ToolUse ToolVocabulary ToolDemo ToolUseFacts.

(** X1.  For arguments of every type, [arithmetic] returns and never
    raises, and what it returns is an integer or a text. *)
Theorem arithmetic_returns_int_or_text (operation a b : value) :
  exists v, arithmetic operation a b = Ok v /\
            ((exists n, v = VInt n) \/ (exists text, v = VStr text)).
Proof.
  unfold arithmetic, try_except.
  destruct a as [|ba|na|sa|da], b as [|bb|nb|sb|db]; simpl; unfold py_int;
    repeat match goal with
           | |- context [int_literal ?s] => destruct (int_literal s); simpl
           end;
    repeat match goal with
           | |- context [in_strs ?o ?l] => destruct (in_strs o l); simpl
           end;
    eexists; (split; [reflexivity|]); eauto.
Qed.

Section Manager.

Variable ticker_info : value -> res kwargs.
Variable ticker_last_price : value -> res (option value).
Variable requests_request : value -> value -> kwargs -> res response.
Variable ollama_chat : string -> list chat_message -> list tool_def -> res chat_response.

#[local] Abbreviation call := (call ticker_info ticker_last_price requests_request).

(** X2.  A registered method called with keywords that do not fit its
    signature (a parameter is missing, or a keyword is unknown and the
    method has no catch-all) raises a [TypeError]; the method's body is
    not run. *)
Theorem call_misfit_raises_TypeError (m : method) (args : kwargs) :
  fits m args = false ->
  exists msg, call m args = Raise (Exn TypeError msg).
Proof.
  intros H. unfold fits in H.
  destruct m; simpl in H; unfold ToolUse.call;
    match goal with
    | |- context [bind_kwargs ?q ?p ?k args] =>
        destruct (bind_kwargs_misfit q p k args H) as [msg ->]
    end;
    by exists msg.
Qed.

(** X3.  Through the registry, the arithmetic tool returns exactly when
    the request supplies operation, a and b and nothing else; with any
    other set of keywords the call raises. *)
Theorem arithmetic_call_returns_iff_fits (args : kwargs) :
  returns (call m_arithmetic args) <-> fits m_arithmetic args = true.
Proof.
  split.
  - intros [v Hv]. destruct (fits m_arithmetic args) eqn:Hfit; [done|].
    unfold ToolUse.call in Hv.
    destruct (bind_kwargs_misfit "OllamaToolManager.arithmetic" ["operation"; "a"; "b"]
                false args Hfit) as [msg Hmsg].
    rewrite Hmsg in Hv. discriminate Hv.
  - intros Hfit. unfold ToolUse.call.
    rewrite (bind_kwargs_fit _ _ _ args Hfit). simpl.
    unfold fits, fits_signature in Hfit. simpl in Hfit.
    apply andb_true_iff in Hfit as [Hp _].
    repeat (apply andb_true_iff in Hp as [?%has_key_lookup Hp]).
    destruct H as [vo ->], H0 as [va ->], H1 as [vb ->]. simpl.
    apply ArithmeticSpec.arithmetic_never_raises.
Qed.

(** *** The stock price lookup *)

#[local] Arguments ToolUse.first_price : simpl never.

#[local] Abbreviation get_stock_price := (get_stock_price ticker_info ticker_last_price).

(** X4.  A price that [get_stock_price] returns is never [None]: it is
    the value of one of the three price attributes of the quote, or the
    last price of the fast lookup. *)
Theorem get_stock_price_never_None (symbol v : value) :
  get_stock_price symbol = Ok v ->
  v <> VNone /\
  ((exists info attr,
      ticker_info symbol = Ok info /\ In attr price_attrs /\ lookup_kw attr info = Some v) \/
   ticker_last_price symbol = Ok (Some v)).
Proof.
  unfold ToolUse.get_stock_price.
  destruct (ticker_info symbol) as [info|e]; simpl; [|done].
  destruct (first_price info price_attrs) as [p|] eqn:Hp.
  - intros [= ->]. destruct (first_price_found info price_attrs v Hp) as (Hv & attr & Hin & Ha).
    split; [done|]. left. by exists info, attr.
  - destruct (ticker_last_price symbol) as [[p|]|e]; simpl; try done.
    destruct (decide (p = VNone)) as [->|Hne]; [done|].
    intros [= ->]. split; [done|]. by right.
Qed.

(** X5.  The price attributes are tried in the order regularMarketPrice,
    currentPrice, price: the first one whose value is present and not
    [None] is returned, whatever the later attributes and the fast
    lookup hold. *)
Theorem get_stock_price_first_attribute_wins (symbol : value) (info : kwargs)
    (pre post : list string) (attr : string) (v : value) :
  ticker_info symbol = Ok info ->
  price_attrs = pre ++ attr :: post ->
  (forall a, In a pre -> lookup_kw a info = None \/ lookup_kw a info = Some VNone) ->
  lookup_kw attr info = Some v ->
  v <> VNone ->
  get_stock_price symbol = Ok v.
Proof.
  intros Hinfo Hattrs Hpre Hattr Hv. unfold ToolUse.get_stock_price.
  rewrite Hinfo. simpl. rewrite Hattrs, (first_price_skips info pre _ Hpre).
  by rewrite (first_price_hit info attr post v Hattr Hv).
Qed.

(** X6.  When no price attribute holds a value and the fast lookup has
    no last price either, [get_stock_price] raises the plain exception
    Could not find valid price data. *)
Theorem get_stock_price_without_data (symbol : value) (info : kwargs) (last : option value) :
  ticker_info symbol = Ok info ->
  (forall a, In a price_attrs -> lookup_kw a info = None \/ lookup_kw a info = Some VNone) ->
  ticker_last_price symbol = Ok last ->
  last = None \/ last = Some VNone ->
  get_stock_price symbol = Raise (Exn PlainException "Could not find valid price data").
Proof.
  intros Hinfo Hattrs Hlast Hnone. unfold ToolUse.get_stock_price.
  rewrite Hinfo. simpl. rewrite (first_price_none info price_attrs Hattrs).
  rewrite Hlast. simpl. destruct Hnone as [-> | ->]; [done|].
  by destruct (decide (VNone = VNone)).
Qed.

(** *** The web request *)

(** X7.  The library is only ever called with keywords that complete
    the caller's: [headers] and [timeout] are present, the caller's own
    keywords (a timeout or headers of its own included) are kept, a
    missing timeout is 10 and missing headers are the default user
    agent.  So two libraries that agree on such keywords give the same
    result. *)
Theorem request_sends_completed_keywords
    (library library' : value -> value -> kwargs -> res response)
    (method url : value) (kw : kwargs) :
  (forall k, completes kw k -> library method url k = library' method url k) ->
  request_with_headers library method url kw = request_with_headers library' method url kw.
Proof.
  intros Hagree. unfold request_with_headers.
  by rewrite (Hagree _ (request_keywords_complete kw)).
Qed.


(** *** Requests of the model *)

#[local] Abbreviation tool_loop := (tool_loop ticker_info ticker_last_price requests_request).
#[local] Abbreviation process_prompt :=
  (process_prompt ticker_info ticker_last_price requests_request ollama_chat).

#[local] Ltac st_unfold :=
  unfold mbind, st_mbind, st_bind, print, record, st_modify, st_lift, mret, st_mret, st_ret;
  simpl.


#[local] Arguments ToolUse.tool_loop : simpl never.


Lemma counts_app tr1 tr2 :
  backend_calls (tr1 ++ tr2) = backend_calls tr1 + backend_calls tr2 /\
  invocations (tr1 ++ tr2) = invocations tr1 + invocations tr2.
Proof. unfold backend_calls, invocations. by rewrite !List.filter_app, !length_app. Qed.

(** One prompt adds one backend call and at most one invocation to any
    trace. *)
Lemma process_prompt_appends prompt model tr :
  exists added,
    (process_prompt prompt model tr).2 = tr ++ added /\
    backend_calls added = 1 /\ invocations added <= 1.
Proof.
  unfold ToolUse.process_prompt. st_unfold.
  destruct (ollama_chat model [ChatMessage "user" prompt] tools) as [reply|e]; simpl.
  - destruct (tool_calls reply) as [[|tool rest]|]; simpl.
    + eexists [_; _]. rewrite <- app_assoc. split; [reflexivity|]. by split; [|compute; lia].
    + destruct (ProcessPromptSpec.tool_loop_trace ticker_info ticker_last_price
                  requests_request (tool :: rest)
                  ((tr ++ [Printed ("Prompt: " +:+ prompt)])
                     ++ [BackendCall model [ChatMessage "user" prompt]]))
        as (added & Htr & Hb & Hi & _).
      destruct (tool_loop (tool :: rest) _) as [[found|e] tr']; simpl in *; subst tr'.
      all: exists ([Printed ("Prompt: " +:+ prompt);
                    BackendCall model [ChatMessage "user" prompt]] ++ added).
      all: split; [by rewrite <- !app_assoc|].
      all: destruct (counts_app [Printed ("Prompt: " +:+ prompt);
                                 BackendCall model [ChatMessage "user" prompt]] added)
             as [-> ->].
      all: rewrite Hb; split; [reflexivity | exact Hi].
    + eexists [_; _]. rewrite <- app_assoc. split; [reflexivity|]. by split; [|compute; lia].
  - eexists [_; _]. rewrite <- app_assoc. split; [reflexivity|]. by split; [|compute; lia].
Qed.

#[local] Abbreviation main := (main ticker_info ticker_last_price requests_request ollama_chat).

#[local] Arguments ToolUse.process_prompt : simpl never.

(** X10.  [main] sends its three prompts in order and stops at the first
    one that raises: it never makes more than three backend calls or
    three invocations, it makes exactly three backend calls when it
    returns, and when the first prompt raises it raises the same
    exception after a single backend call. *)
Theorem main_runs_prompts_in_order :
  let run := main [] in
  backend_calls run.2 <= 3 /\
  invocations run.2 <= 3 /\
  (returns run.1 -> backend_calls run.2 = 3) /\
  (forall e,
      (process_prompt "What is the current stock price of Apple?" "llama3.2" []).1 = Raise e ->
      run.1 = Raise e /\ backend_calls run.2 = 1).
Proof.
  unfold ToolDemo.main. st_unfold.
  destruct (process_prompt_appends "What is the current stock price of Apple?" "llama3.2" [])
    as (a1 & H1 & Hb1 & Hi1).
  destruct (process_prompt "What is the current stock price of Apple?" "llama3.2" [])
    as [[v1|e1] tr1]; simpl in *; subst tr1.
  2: { split; [lia|]. split; [lia|]. split; [by intros [v Hv]|]. by intros e [= <-]. }
  destruct (process_prompt_appends "What is three plus one?" "llama3.2" a1)
    as (a2 & H2 & Hb2 & Hi2).
  destruct (process_prompt "What is three plus one?" "llama3.2" a1)
    as [[v2|e2] tr2]; simpl in *; subst tr2.
  2: { destruct (counts_app a1 a2) as [-> ->].
       split; [lia|]. split; [lia|]. split; [by intros [v Hv]|]. by intros e. }
  destruct (process_prompt_appends "get the https://httpbin.org/get webpage?" "llama3.2"
              (a1 ++ a2)) as (a3 & H3 & Hb3 & Hi3).
  destruct (process_prompt "get the https://httpbin.org/get webpage?" "llama3.2" (a1 ++ a2))
    as [[v3|e3] tr3]; simpl in *; subst tr3.
  all: destruct (counts_app (a1 ++ a2) a3) as [-> ->].
  all: destruct (counts_app a1 a2) as [-> ->].
  all: split; [lia|]; split; [lia|]; split; [|by intros e].
  - intros _. lia.
  - by intros [v Hv].
Qed.

End Manager.

Import ToolScenarios.

Lemma call_misfit_raises_TypeError_witness :
  exists msg,
    call no_quote no_last_price http_ok m_arithmetic [("operation", VStr "add"); ("a", VInt 3)]
      = Raise (Exn TypeError msg).
Proof.
  apply (call_misfit_raises_TypeError no_quote no_last_price http_ok m_arithmetic
           [("operation", VStr "add"); ("a", VInt 3)]).
  reflexivity.
Defined.

Lemma arithmetic_call_returns_iff_fits_witness :
  returns (call no_quote no_last_price http_ok m_arithmetic
             [("b", VStr "1"); ("operation", VStr "+"); ("a", VInt 3)]).
Proof.
  apply (arithmetic_call_returns_iff_fits no_quote no_last_price http_ok
           [("b", VStr "1"); ("operation", VStr "+"); ("a", VInt 3)]).
  reflexivity.
Defined.

(** A quote whose first attribute is [None] and whose second holds a
    price. *)
Lemma get_stock_price_first_attribute_wins_witness :
  get_stock_price
    (fun _ => Ok [("price", VInt 7); ("regularMarketPrice", VNone); ("currentPrice", VInt 190)])
    no_last_price (VStr "AAPL") = Ok (VInt 190).
Proof.
  apply (get_stock_price_first_attribute_wins _ no_last_price (VStr "AAPL")
           [("price", VInt 7); ("regularMarketPrice", VNone); ("currentPrice", VInt 190)]
           ["regularMarketPrice"] ["price"] "currentPrice" (VInt 190)).
  - reflexivity.
  - reflexivity.
  - intros a [<- | []]. by right.
  - reflexivity.
  - discriminate.
Defined.

Lemma get_stock_price_never_None_witness :
  VInt 190 <> VNone /\
  ((exists info attr,
      (fun _ : value => Ok [("regularMarketPrice", VNone); ("currentPrice", VInt 190)])
        (VStr "AAPL") = Ok info /\
      In attr price_attrs /\ lookup_kw attr info = Some (VInt 190)) \/
   no_last_price (VStr "AAPL") = Ok (Some (VInt 190))).
Proof.
  apply (get_stock_price_never_None
           (fun _ => Ok [("regularMarketPrice", VNone); ("currentPrice", VInt 190)])
           no_last_price (VStr "AAPL") (VInt 190)).
  reflexivity.
Defined.

Lemma get_stock_price_without_data_witness :
  get_stock_price no_quote no_last_price (VStr "AAPL")
    = Raise (Exn PlainException "Could not find valid price data").
Proof.
  apply (get_stock_price_without_data no_quote no_last_price (VStr "AAPL") [] None).
  - reflexivity.
  - intros a _. by left.
  - reflexivity.
  - by left.
Defined.

(** A library that ignores everything but the timeout. *)
Lemma request_sends_completed_keywords_witness :
  request_with_headers
    (fun _ _ k => Ok (Response (if decide (lookup_kw "timeout" k = Some (VInt 10))
                                then 200 else 408) (Ok tt)))
    (VStr "GET") (VStr "https://httpbin.org/get") []
  = request_with_headers http_ok (VStr "GET") (VStr "https://httpbin.org/get") [].
Proof.
  apply request_sends_completed_keywords.
  intros k (_ & _ & _ & Htimeout & _). rewrite (Htimeout eq_refl). reflexivity.
Defined.


End ToolUseExtras.

(** ** More on the configuration loader *)

Module ConfigExtras.
Import Py Mcp ConfigVocabulary ConfigScenarios ConfigFacts McpDemo.

#[local] Ltac res_unfold := unfold mbind, res_mbind, res_bind; simpl.

(** The full table of handles of a well-formed configuration. *)
Lemma server_loop_lookup servers agents name :
  NoDup (map fst servers) ->
  (forall n server_config, In (n, server_config) servers ->
     is_mapping server_config /\ (is_active server_config = true -> well_formed server_config)) ->
  server_loop servers ∅ = Ok agents ->
  (forall server_config l,
      In (name, server_config) servers -> is_active server_config = true ->
      has_launch server_config l -> agents !! name = Some (handle_for l)) /\
  ((forall server_config, In (name, server_config) servers ->
                          is_active server_config = false) ->
   agents !! name = None).
Proof.
  intros Hnodup Hok Hloop.
  destruct (server_loop_well_formed servers ∅ Hnodup Hok) as (agents' & Hloop' & Hact & Hinact & _).
  rewrite Hloop in Hloop'. injection Hloop' as <-. split.
  - intros sc l. apply Hact.
  - intros Hall. by rewrite (Hinact name Hall), lookup_empty.
Qed.

(** X11.  [create_agents] passes on the error of reading the
    configuration, raises KeyError when the configuration is a mapping
    without the key mcpServers, and raises AttributeError when the value
    under that key is not a mapping. *)
Theorem create_agents_needs_mcpServers :
  (forall e, create_agents (Raise e) = Raise e) /\
  (forall fields,
      lookup_field "mcpServers" fields = None ->
      create_agents (Ok (JObj fields)) = Raise (Exn KeyError "'mcpServers'")) /\
  (forall fields servers,
      lookup_field "mcpServers" fields = Some servers ->
      ~ is_mapping servers ->
      exists msg, create_agents (Ok (JObj fields)) = Raise (Exn AttributeError msg)).
Proof.
  split; [done|]. split.
  - intros fields H. unfold create_agents, create_agents_from. res_unfold. by rewrite H.
  - intros fields servers H Hmap. unfold create_agents, create_agents_from. res_unfold.
    rewrite H. simpl.
    destruct servers; try (by eexists). destruct Hmap. by eexists.
Qed.

(** X12.  When no entry is active (in particular when there is no entry
    at all), [create_agents] returns the empty table, whatever the
    inactive entries contain. *)
Theorem no_active_entry_no_agent (config : json) (servers : list (string * json)) :
  subscript config "mcpServers" = Ok (JObj servers) ->
  (forall name server_config, In (name, server_config) servers ->
     is_mapping server_config /\ is_active server_config = false) ->
  create_agents_from config = Ok ∅.
Proof.
  intros Hconfig Hall. unfold create_agents_from. rewrite Hconfig. res_unfold.
  rewrite server_loop_active_entries by (intros n sc Hin; by apply (Hall n sc)).
  assert (active_entries servers = []) as ->; [|done].
  clear Hconfig. induction servers as [|[n c] rest IH]; [done|].
  rewrite (active_entries_cons_inactive n c rest) by (by apply (Hall n c); left).
  apply IH. intros n' sc Hin. apply (Hall n'). by right.
Qed.

(** X13.  For well-formed configurations the table of handles does not
    depend on the order of the entries. *)
Theorem create_agents_order_independent (config config' : json)
    (servers servers' : list (string * json)) :
  subscript config "mcpServers" = Ok (JObj servers) ->
  subscript config' "mcpServers" = Ok (JObj servers') ->
  Permutation servers servers' ->
  NoDup (map fst servers) ->
  (forall name server_config, In (name, server_config) servers ->
     is_mapping server_config /\ (is_active server_config = true -> well_formed server_config)) ->
  exists agents,
    create_agents_from config = Ok agents /\ create_agents_from config' = Ok agents.
Proof.
  intros Hconfig Hconfig' Hperm Hnodup Hok.
  assert (Hnodup' : NoDup (map fst servers')).
  { eapply NoDup_Permutation_proper; [|exact Hnodup]. symmetry. by apply Permutation_map. }
  assert (Hok' : forall name server_config, In (name, server_config) servers' ->
            is_mapping server_config /\
            (is_active server_config = true -> well_formed server_config)).
  { intros n sc Hin. apply (Hok n). eapply Permutation_in; [symmetry; exact Hperm | exact Hin]. }
  destruct (server_loop_well_formed servers ∅ Hnodup Hok) as (agents & Hloop & _).
  destruct (server_loop_well_formed servers' ∅ Hnodup' Hok') as (agents' & Hloop' & _).
  exists agents. unfold create_agents_from. rewrite Hconfig, Hconfig'. res_unfold.
  split; [exact Hloop|]. rewrite Hloop'. f_equal. apply map_eq. intros name.
  destruct (server_loop_lookup servers agents name Hnodup Hok Hloop) as [Hact Hinact].
  destruct (server_loop_lookup servers' agents' name Hnodup' Hok' Hloop') as [Hact' Hinact'].
  destruct (active_entry_or_none name servers) as [(sc & Hin & Hactive) | Hnone].
  - destruct (Hok name sc Hin) as [_ Hwf]. destruct (Hwf Hactive) as [l Hl].
    rewrite (Hact sc l Hin Hactive Hl).
    apply (Hact' sc l); [|done|done]. by apply (Permutation_in _ Hperm).
  - rewrite (Hinact Hnone). apply Hinact'.
    intros sc Hin. apply Hnone. eapply Permutation_in; [symmetry; exact Hperm | exact Hin].
Qed.

Lemma str_items_chars s : forall i, str_items i (chars s) = Ok (characters s).
Proof.
  induction s as [|c s IH]; intros i; simpl; [done|]. rewrite IH. reflexivity.
Qed.

(** X14.  An active entry whose args are given as one string instead of
    a list is accepted, and the string is taken apart: the command line
    is the command followed by every single character of the string,
    separated by blanks. *)
Theorem args_string_is_split (agents : gmap string Agent) (name : string)
    (fields : list (string * json)) (command args : string) (instr : json) :
  is_active (JObj fields) = true ->
  lookup_field "command" fields = Some (JStr command) ->
  lookup_field "args" fields = Some (JStr args) ->
  lookup_field "instructions" fields = Some instr ->
  server_round agents name (JObj fields) =
    Ok (<[name := mk_Agent instr LLM (mk_MCP (join " " (command :: characters args))) true]>
          agents).
Proof.
  intros Hactive Hc Ha Hi. unfold server_round, is_active in *. simpl in *. res_unfold.
  rewrite Hactive. simpl. rewrite Hc, Ha. simpl.
  unfold str_join. res_unfold. rewrite str_items_chars. simpl. by rewrite Hi.
Qed.

(** X15.  The active flag need not be a boolean: for a well-formed
    configuration a name has a handle exactly when its entry's flag is
    present and counts as true in a condition (true, a non-zero number,
    a non-empty string, list or mapping). *)
Theorem handle_iff_flag_truthy (config : json) (servers : list (string * json))
    (agents : gmap string Agent) (name : string) :
  subscript config "mcpServers" = Ok (JObj servers) ->
  NoDup (map fst servers) ->
  (forall n server_config, In (n, server_config) servers ->
     is_mapping server_config /\ (is_active server_config = true -> well_formed server_config)) ->
  create_agents_from config = Ok agents ->
  (is_Some (agents !! name) <->
   exists server_config flag,
     In (name, server_config) servers /\
     active_flag server_config = Some flag /\ json_truthy flag = true).
Proof.
  intros Hconfig Hnodup Hok Hagents.
  unfold create_agents_from in Hagents. rewrite Hconfig in Hagents. simpl in Hagents.
  destruct (server_loop_lookup servers agents name Hnodup Hok Hagents) as [Hact Hinact].
  split.
  - intros [a Ha].
    destruct (active_entry_or_none name servers) as [(sc & Hin & Hactive) | Hnone].
    + unfold is_active in Hactive. destruct (active_flag sc) as [flag|] eqn:Hflag; [|done].
      by exists sc, flag.
    + rewrite (Hinact Hnone) in Ha. discriminate Ha.
  - intros (sc & flag & Hin & Hflag & Htruthy).
    assert (is_active sc = true) as Hactive by (unfold is_active; by rewrite Hflag).
    destruct (Hok name sc Hin) as [_ Hwf]. destruct (Hwf Hactive) as [l Hl].
    rewrite (Hact sc l Hin Hactive Hl). by eexists.
Qed.

(** X16.  An active entry whose args list holds something that is not a
    string makes its round raise a TypeError, and the whole load ends
    with an exception. *)
Theorem non_string_argument_aborts (config : json) (servers : list (string * json))
    (name command : string) (fields : list (string * json)) (args : list json) :
  subscript config "mcpServers" = Ok (JObj servers) ->
  In (name, JObj fields) servers ->
  is_active (JObj fields) = true ->
  lookup_field "command" fields = Some (JStr command) ->
  lookup_field "args" fields = Some (JList args) ->
  (exists j, In j args /\ forall s, j <> JStr s) ->
  (forall agents, exists msg,
      server_round agents name (JObj fields) = Raise (Exn TypeError msg)) /\
  exists e, create_agents_from config = Raise e.
Proof.
  intros Hconfig Hin Hactive Hc Ha (j & Hj & Hnot).
  assert (forall i, exists msg, str_items i args = Raise (Exn TypeError msg)) as Hitems.
  { clear Ha. induction args as [|x args IH]; [done|]. intros i. simpl.
    destruct Hj as [-> | Hj].
    - destruct j; try (by eexists). by destruct (Hnot s).
    - destruct (IH Hj (S i)) as [msg Hmsg]. rewrite Hmsg.
      destruct x; by eexists. }
  assert (Hround : forall agents, exists msg,
             server_round agents name (JObj fields) = Raise (Exn TypeError msg)).
  { intros agents. unfold server_round, is_active in *. simpl in *. res_unfold.
    rewrite Hactive. simpl. rewrite Hc, Ha. simpl. unfold str_join. res_unfold.
    destruct (Hitems 1) as [msg ->]. by exists msg. }
  split; [exact Hround|].
  unfold create_agents_from. rewrite Hconfig. res_unfold.
  clear Hconfig. generalize (∅ : gmap string Agent).
  induction servers as [|[n c] rest IH]; intros agents; [done|]. simpl.
  destruct (server_round agents n c) as [agents'|e] eqn:Hr; simpl; [|by eexists].
  destruct Hin as [[= -> ->] | Hin].
  - destruct (Hround agents) as [msg Hmsg]. congruence.
  - by apply IH.
Qed.

(** X17.  For a well-formed configuration the script asks the airbnb
    agent exactly when the configuration has an active entry named
    airbnb: it then prints the heading and the agent's answer (or ends
    with the agent's error); without such an entry it prints nothing. *)
Theorem script_asks_airbnb_iff_active (config : json) (servers : list (string * json))
    (start : Agent -> string -> res string) :
  subscript config "mcpServers" = Ok (JObj servers) ->
  NoDup (map fst servers) ->
  (forall n server_config, In (n, server_config) servers ->
     is_mapping server_config /\ (is_active server_config = true -> well_formed server_config)) ->
  (forall server_config l,
      In ("airbnb", server_config) servers -> is_active server_config = true ->
      has_launch server_config l ->
      script (Ok config) start =
        match start (handle_for l) airbnb_query with
        | Ok response => Ok [newline +:+ "Search Results:"; response]
        | Raise e => Raise e
        end) /\
  ((forall server_config, In ("airbnb", server_config) servers ->
                          is_active server_config = false) ->
   script (Ok config) start = Ok []).
Proof.
  intros Hconfig Hnodup Hok.
  destruct (server_loop_well_formed servers ∅ Hnodup Hok) as (agents & Hloop & _).
  destruct (server_loop_lookup servers agents "airbnb" Hnodup Hok Hloop) as [Hact Hinact].
  assert (create_agents (Ok config) = Ok agents) as Hagents.
  { unfold create_agents, create_agents_from. res_unfold. by rewrite Hconfig. }
  split.
  - intros sc l Hin Hactive Hl. unfold script. rewrite Hagents. res_unfold.
    rewrite (Hact sc l Hin Hactive Hl). by destruct (start (handle_for l) airbnb_query).
  - intros Hnone. unfold script. rewrite Hagents. res_unfold. by rewrite (Hinact Hnone).
Qed.

Lemma no_active_entry_no_agent_witness :
  create_agents_from
    (JObj [("mcpServers", JObj [("web", JObj [("active", JBool false)]); ("old", JObj [])])])
  = Ok ∅.
Proof.
  apply (no_active_entry_no_agent
           (JObj [("mcpServers",
                   JObj [("web", JObj [("active", JBool false)]); ("old", JObj [])])])
           [("web", JObj [("active", JBool false)]); ("old", JObj [])]).
  - reflexivity.
  - intros name sc [[= <- <-] | [[= <- <-] | []]]; (split; [by eexists | reflexivity]).
Defined.

Lemma calc_and_web_ok (name : string) (server_config : json) :
  In (name, server_config) calc_and_web ->
  is_mapping server_config /\ (is_active server_config = true -> well_formed server_config).
Proof.
  intros [[= <- <-] | [[= <- <-] | []]].
  - split; [by eexists|]. intros _. exists (Launch "tool-calc" [] (JStr "")).
    eexists. repeat split; reflexivity.
  - split; [by eexists|]. intros H. vm_compute in H. discriminate H.
Qed.

Lemma calc_and_web_distinct : NoDup (map fst calc_and_web).
Proof.
  apply NoDup_cons. split; [|apply NoDup_cons; split; [|apply NoDup_nil_2]];
    rewrite list_elem_of_In; simpl; intuition discriminate.
Qed.

Lemma create_agents_order_independent_witness :
  exists agents,
    create_agents_from (JObj [("mcpServers", JObj calc_and_web)]) = Ok agents /\
    create_agents_from (JObj [("mcpServers", JObj [("web", web_entry); ("calc", calc_entry)])])
      = Ok agents.
Proof.
  apply (create_agents_order_independent
           (JObj [("mcpServers", JObj calc_and_web)])
           (JObj [("mcpServers", JObj [("web", web_entry); ("calc", calc_entry)])])
           calc_and_web [("web", web_entry); ("calc", calc_entry)]).
  - reflexivity.
  - reflexivity.
  - apply perm_swap.
  - exact calc_and_web_distinct.
  - exact calc_and_web_ok.
Defined.

Lemma args_string_is_split_witness :
  server_round ∅ "calc"
    (JObj [("command", JStr "uvx"); ("args", JStr "-v"); ("active", JBool true);
           ("instructions", JStr "")])
  = Ok (<["calc" := mk_Agent (JStr "") LLM (mk_MCP "uvx - v") true]> ∅).
Proof.
  apply (args_string_is_split ∅ "calc" _ "uvx" "-v" (JStr "")); reflexivity.
Defined.

(** The text false is not the boolean: the entry is active. *)
Lemma handle_iff_flag_truthy_witness :
  exists agents,
    create_agents_from (JObj [("mcpServers", JObj [("calc", text_flag_entry)])]) = Ok agents /\
    is_Some (agents !! "calc").
Proof.
  eexists. split; [reflexivity|].
  apply (handle_iff_flag_truthy (JObj [("mcpServers", JObj [("calc", text_flag_entry)])])
           [("calc", text_flag_entry)] _ "calc" eq_refl); [| |reflexivity|].
  - apply NoDup_cons. split; [|apply NoDup_nil_2]. rewrite list_elem_of_In. by intros [].
  - intros n sc [[= <- <-] | []]. split; [by eexists|]. intros _.
    exists (Launch "tool-calc" [] (JStr "")). eexists. repeat split; reflexivity.
  - exists text_flag_entry, (JStr "false"). split; [by left|]. split; reflexivity.
Defined.

Lemma non_string_argument_aborts_witness :
  exists e,
    create_agents_from
      (JObj [("mcpServers",
              JObj [("calc", JObj [("command", JStr "tool-calc"); ("args", JList [JInt 8080]);
                                   ("active", JBool true); ("instructions", JStr "")])])])
    = Raise e.
Proof.
  apply (non_string_argument_aborts
           (JObj [("mcpServers",
                   JObj [("calc", JObj [("command", JStr "tool-calc");
                                        ("args", JList [JInt 8080]);
                                        ("active", JBool true); ("instructions", JStr "")])])])
           [("calc", JObj [("command", JStr "tool-calc"); ("args", JList [JInt 8080]);
                           ("active", JBool true); ("instructions", JStr "")])]
           "calc" "tool-calc"
           [("command", JStr "tool-calc"); ("args", JList [JInt 8080]);
            ("active", JBool true); ("instructions", JStr "")]
           [JInt 8080] eq_refl).
  - by left.
  - reflexivity.
  - reflexivity.
  - reflexivity.
  - exists (JInt 8080). split; [by left | discriminate].
Defined.

Lemma script_asks_airbnb_iff_active_witness :
  script (Ok (JObj [("mcpServers", JObj calc_and_web)])) (fun _ _ => Ok "two flats") = Ok [].
Proof.
  destruct (script_asks_airbnb_iff_active (JObj [("mcpServers", JObj calc_and_web)])
              calc_and_web (fun _ _ => Ok "two flats") eq_refl
              calc_and_web_distinct calc_and_web_ok) as [_ Hnone].
  apply Hnone. intros sc [[=] | [[=] | []]].
Defined.

End ConfigExtras.

(** ** More on the chatbot *)

Module ChatExtras.
Import Py Chatbot ChatVocabulary ChatbotFacts ChatDemo.

#[local] Arguments collect : simpl never.
#[local] Arguments for_each : simpl never.

Section Collaborators.

Variable OLLAMA_HOST : option string.
Variable client_aenter : stdio_client -> list ext_call -> res (stream * stream).
Variable session_aenter : ClientSession -> list ext_call -> res unit.
Variable session_initialize : ClientSession -> list ext_call -> res unit.
Variable load_mcp_tools : ClientSession -> list ext_call -> res (list mcp_tool).
Variable create_react_agent : ChatOllama -> list mcp_tool -> list ext_call -> res react_agent.
Variable ainvoke :
  react_agent -> list base_message -> list ext_call -> res (option (list base_message)).
Variable session_aexit : ClientSession -> list ext_call -> res unit.
Variable client_aexit : stdio_client -> list ext_call -> res unit.
Variable history_is_live : bool.

#[local] Abbreviation initialize :=
  (initialize client_aenter session_aenter session_initialize load_mcp_tools
     create_react_agent).
#[local] Abbreviation chat :=
  (chat client_aenter session_aenter session_initialize load_mcp_tools
     create_react_agent ainvoke history_is_live).
#[local] Abbreviation cleanup := (cleanup session_aexit client_aexit).

#[local] Ltac init_unfold :=
  unfold Chatbot.initialize;
  unfold mbind, st_mbind, st_bind, st_try, on_self, get_self, add_message,
    external, when, st_modify, st_raise, mret, st_mret, st_ret;
  simpl.

(** X18.  When [initialize] returns, it has made exactly five calls, in
    this order: enter the client, enter the session, initialise the
    session, load the tools, create the agent.  The chatbot is ready and
    holds the client, both streams, the session, the tools and the agent
    these calls produced, and the history has gained the system message
    if there is a non-empty one, and nothing else. *)
Theorem initialize_success (s s1 : state) :
  initialize s = (Ok tt, s1) ->
  let c := self s in
  let model := mk_ChatOllama (model_name c) (base_url c) (temperature c) (top_p c) in
  let client := mk_stdio_client (mcp_server_params c) in
  exists r w tools a,
    calls s1 = calls s ++ [ClientEnter client;
                           SessionEnter (mk_ClientSession r w);
                           SessionInitialize (mk_ClientSession r w);
                           LoadTools (mk_ClientSession r w);
                           CreateAgent model tools] /\
    chat_model (self s1) = Some model /\
    mcp_client (self s1) = Some client /\
    mcp_read (self s1) = Some r /\
    mcp_write (self s1) = Some w /\
    mcp_session (self s1) = Some (mk_ClientSession r w) /\
    mcp_tools (self s1) = Some tools /\
    agent (self s1) = Some a /\
    ready (self s1) = true /\
    memory (self s1) = memory c ++ system_entry c /\
    same_settings c (self s1).
Proof.
  init_unfold. unfold system_entry, same_settings.
  set (client := mk_stdio_client (mcp_server_params (self s))).
  destruct (verbose (self s)) eqn:Hverbose; simpl.
  all: destruct (client_aenter client (calls s)) as [[r w]|e1]; simpl;
    [|destruct (is_Exception e1); by simpl].
  all: destruct (session_aenter (mk_ClientSession r w) _) as [[]|e2]; simpl;
    [|destruct (is_Exception e2); by simpl].
  all: destruct (session_initialize (mk_ClientSession r w) _) as [[]|e3]; simpl;
    [|destruct (is_Exception e3); by simpl].
  all: destruct (load_mcp_tools (mk_ClientSession r w) _) as [tools|e4]; simpl;
    [|destruct (is_Exception e4); by simpl].
  all: rewrite ?ChatbotSpec.for_each_log; simpl.
  all: match goal with
       | |- context [create_react_agent ?m ?t ?k] =>
           destruct (create_react_agent m t k) as [a|e5]; simpl;
           [|destruct (is_Exception e5); by simpl]
       end.
  all: destruct (nonempty (system_message (self s))); simpl.
  all: intros [= <-]; exists r, w, tools, a; simpl.
  all: rewrite <- ?app_assoc, ?app_nil_r; simpl; repeat split; done.
Qed.

(** A successful [initialize] leaves the chatbot ready and appends the
    system message only. *)
Lemma initialize_ok_ready s s1 :
  initialize s = (Ok tt, s1) ->
  ready (self s1) = true /\ memory (self s1) = memory (self s) ++ system_entry (self s).
Proof.
  init_unfold. unfold system_entry.
  set (client := mk_stdio_client (mcp_server_params (self s))).
  destruct (verbose (self s)); simpl.
  all: destruct (client_aenter client (calls s)) as [[r w]|e1]; simpl;
    [|destruct (is_Exception e1); by simpl].
  all: destruct (session_aenter (mk_ClientSession r w) _) as [[]|e2]; simpl;
    [|destruct (is_Exception e2); by simpl].
  all: destruct (session_initialize (mk_ClientSession r w) _) as [[]|e3]; simpl;
    [|destruct (is_Exception e3); by simpl].
  all: destruct (load_mcp_tools (mk_ClientSession r w) _) as [tools|e4]; simpl;
    [|destruct (is_Exception e4); by simpl].
  all: rewrite ?ChatbotSpec.for_each_log; simpl.
  all: match goal with
       | |- context [create_react_agent ?m ?t ?k] =>
           destruct (create_react_agent m t k) as [a|e5]; simpl;
           [|destruct (is_Exception e5); by simpl]
       end.
  all: destruct (nonempty (system_message (self s))); simpl.
  all: intros [= <-]; simpl; by rewrite ?app_nil_r.
Qed.

(** A failed [initialize] leaves the history as it was. *)
Lemma initialize_failure_keeps_history s s1 e :
  initialize s = (Raise e, s1) -> memory (self s1) = memory (self s).
Proof.
  init_unfold.
  set (client := mk_stdio_client (mcp_server_params (self s))).
  destruct (verbose (self s)); simpl.
  all: destruct (client_aenter client (calls s)) as [[r w]|e1]; simpl;
    [|destruct (is_Exception e1); simpl; by intros [= <- <-]].
  all: destruct (session_aenter (mk_ClientSession r w) _) as [[]|e2]; simpl;
    [|destruct (is_Exception e2); simpl; by intros [= <- <-]].
  all: destruct (session_initialize (mk_ClientSession r w) _) as [[]|e3]; simpl;
    [|destruct (is_Exception e3); simpl; by intros [= <- <-]].
  all: destruct (load_mcp_tools (mk_ClientSession r w) _) as [tools|e4]; simpl;
    [|destruct (is_Exception e4); simpl; by intros [= <- <-]].
  all: rewrite ?ChatbotSpec.for_each_log; simpl.
  all: match goal with
       | |- context [create_react_agent ?m ?t ?k] =>
           destruct (create_react_agent m t k) as [a|e5]; simpl;
           [|destruct (is_Exception e5); simpl; by intros [= <- <-]]
       end.
  all: by destruct (nonempty (system_message (self s))).
Qed.

(** *** Turns *)

(** On a chatbot that is not ready, [chat] starts with [initialize]. *)
Lemma chat_not_ready s message :
  ready (self s) = false ->
  chat message s =
    match initialize s with
    | (Ok _, s1) => chat message s1
    | (Raise e, s1) => (Raise e, s1)
    end.
Proof.
  intros Hready. unfold Chatbot.chat.
  unfold mbind at 1, st_mbind at 1, st_bind at 1, get_self at 1. rewrite Hready. simpl.
  unfold mbind at 1, st_mbind at 1, st_bind at 1.
  destruct (initialize s) as [[[]|e] s1] eqn:Hinit; [|reflexivity].
  destruct (initialize_ok_ready s s1 Hinit) as [Hready1 _].
  unfold mbind, st_mbind, st_bind, get_self, mret, st_mret, st_ret. simpl.
  rewrite !Hready1. simpl. rewrite ?Hready1. reflexivity.
Qed.

(** X19.  [chat] initialises lazily: on a chatbot that is not ready it
    first runs [initialize]; when that raises, [chat] raises the same
    exception and has done nothing else (the user's message is not
    recorded); when it returns, the turn goes on exactly as on the
    initialised chatbot. *)
Theorem chat_initializes_lazily (s : state) (message : string) :
  ready (self s) = false ->
  (forall e s1, initialize s = (Raise e, s1) -> chat message s = (Raise e, s1)) /\
  (forall s1, initialize s = (Ok tt, s1) -> chat message s = chat message s1).
Proof.
  intros Hready. split.
  - intros e s1 Hinit. by rewrite (chat_not_ready s message Hready), Hinit.
  - intros s1 Hinit. by rewrite (chat_not_ready s message Hready), Hinit.
Qed.

(** What a turn on a ready chatbot does to the history. *)
Lemma chat_ready_appends s message :
  ready (self s) = true ->
  exists added, memory (self (chat message s).2) = memory (self s) ++ HumanMessage message :: added.
Proof.
  intros Hready.
  rewrite (ChatbotSpec.chat_ready client_aenter session_aenter session_initialize
             load_mcp_tools create_react_agent ainvoke history_is_live s message Hready).
  unfold st_try, mbind, st_mbind, st_bind, st_raise, app_logger, st_modify, mret, st_mret,
    st_ret.
  destruct (agent (self s)) as [a|]; simpl.
  - unfold external. simpl.
    destruct (ainvoke a _ (calls s)) as [reply|e]; simpl.
    + rewrite collect_spec. simpl. destruct (self s); simpl.
      exists (kept (default [] reply)). by rewrite <- app_assoc.
    + destruct (is_Exception e); simpl; destruct (self s); simpl; by exists [].
  - destruct (self s); simpl. by exists [].
Qed.

(** X20.  [chat] only ever appends to the history: whatever the
    collaborators do, and whether or not the chatbot was ready, the
    history before the call is a prefix of the history after it. *)
Theorem chat_appends_to_history (s : state) (message : string) :
  memory (self s) `prefix_of` memory (self (chat message s).2).
Proof.
  destruct (ready (self s)) eqn:Hready.
  - destruct (chat_ready_appends s message Hready) as [added ->]. by eexists.
  - rewrite (chat_not_ready s message Hready).
    destruct (initialize s) as [[[]|e] s1] eqn:Hinit.
    + destruct (initialize_ok_ready s s1 Hinit) as [Hready1 Hmem].
      destruct (chat_ready_appends s1 message Hready1) as [added ->].
      rewrite Hmem, <- app_assoc. by eexists.
    + simpl. by rewrite (initialize_failure_keeps_history s s1 e Hinit).
Qed.

(** X21.  When the agent answers, [chat] returns the text of the last
    assistant message that has one (the empty text if there is none)
    and appends, after the user's message and in the order of the
    answer, a fresh assistant message for every assistant message with
    text and every tool message with text as it is; all other messages
    of the answer are dropped.  Nothing is logged and the agent is
    invoked once. *)
Theorem chat_keeps_answer_in_order (s : state) (message : string) (a : react_agent)
    (reply : option (list base_message)) :
  ready (self s) = true ->
  agent (self s) = Some a ->
  ainvoke a (agent_input history_is_live (self s) message) (calls s) = Ok reply ->
  let run := chat message s in
  run.1 = Ok (final_content (default [] reply) "") /\
  memory (self run.2) = memory (self s) ++ [HumanMessage message] ++ kept (default [] reply) /\
  log run.2 = log s /\
  calls run.2 = calls s ++ [Ainvoke a (agent_input history_is_live (self s) message)].
Proof.
  intros Hready Hagent Hreply. simpl.
  rewrite (ChatbotSpec.chat_answer client_aenter session_aenter session_initialize
             load_mcp_tools create_react_agent ainvoke history_is_live
             s message a reply Hready Hagent Hreply).
  simpl. by destruct (self s).
Qed.

(** *** Shutdown *)

#[local] Ltac clean_unfold :=
  unfold Chatbot.cleanup;
  unfold mbind, st_mbind, st_bind, st_try, on_self, get_self, app_logger, external,
    base_cleanup, st_modify, st_raise, mret, st_mret, st_ret;
  simpl.

(** X22.  [cleanup] exits the session first and the client second, and
    makes no other call: without a session it makes no call at all, and
    when both exits succeed nothing is logged. *)
Theorem cleanup_exits_session_then_client (s : state) :
  (mcp_session (self s) = None ->
   (cleanup s).1 = Ok tt /\ calls (cleanup s).2 = calls s /\ log (cleanup s).2 = log s) /\
  (forall session client,
      mcp_session (self s) = Some session ->
      mcp_client (self s) = Some client ->
      session_aexit session (calls s) = Ok tt ->
      client_aexit client (calls s ++ [SessionExit session]) = Ok tt ->
      (cleanup s).1 = Ok tt /\
      calls (cleanup s).2 = calls s ++ [SessionExit session; ClientExit client] /\
      log (cleanup s).2 = log s).
Proof.
  split.
  - intros Hs. clean_unfold. rewrite Hs. by simpl.
  - intros session client Hs Hc Hse Hce. clean_unfold.
    rewrite Hs. simpl. rewrite Hse. simpl. rewrite Hc. simpl. rewrite Hce. simpl.
    by rewrite <- app_assoc.
Qed.

(** X23.  When the exit of the session fails, [cleanup] logs the error
    and still completes with the chatbot released, but the client is
    never asked to exit: the only call made is the exit of the session,
    and the client stays in its field. *)
Theorem cleanup_skips_client_after_failed_exit (s : state) (session : ClientSession)
    (e : exn) :
  mcp_session (self s) = Some session ->
  session_aexit session (calls s) = Raise e ->
  is_Exception e = true ->
  (cleanup s).1 = Ok tt /\
  calls (cleanup s).2 = calls s ++ [SessionExit session] /\
  log (cleanup s).2 = log s ++ [(ERROR, "Error cleaning up MCP session: " +:+ exn_str e)] /\
  released (self (cleanup s).2) /\
  mcp_client (self (cleanup s).2) = mcp_client (self s).
Proof.
  intros Hs Hse He. clean_unfold. unfold released.
  rewrite Hs. simpl. rewrite Hse. simpl. rewrite He. simpl. repeat split.
Qed.

(** Both exits succeed: [cleanup] completes after these two calls. *)
Lemma cleanup_both_exits s session client :
  mcp_session (self s) = Some session ->
  mcp_client (self s) = Some client ->
  session_aexit session (calls s) = Ok tt ->
  client_aexit client (calls s ++ [SessionExit session]) = Ok tt ->
  (cleanup s).1 = Ok tt /\
  calls (cleanup s).2 = calls s ++ [SessionExit session; ClientExit client].
Proof.
  intros Hs Hc Hse Hce. clean_unfold.
  rewrite Hs. simpl. rewrite Hse. simpl. rewrite Hc. simpl. rewrite Hce. simpl.
  by rewrite <- app_assoc.
Qed.

(** Where [initialize] stands when the handshake fails. *)
Lemma initialize_handshake_failure s r w e :
  client_aenter (mk_stdio_client (mcp_server_params (self s))) (calls s) = Ok (r, w) ->
  session_aenter (mk_ClientSession r w)
    (calls s ++ [ClientEnter (mk_stdio_client (mcp_server_params (self s)))]) = Ok tt ->
  session_initialize (mk_ClientSession r w)
    ((calls s ++ [ClientEnter (mk_stdio_client (mcp_server_params (self s)))])
       ++ [SessionEnter (mk_ClientSession r w)]) = Raise e ->
  (initialize s).1 = Raise e /\
  mcp_session (self (initialize s).2) = Some (mk_ClientSession r w) /\
  mcp_client (self (initialize s).2) = Some (mk_stdio_client (mcp_server_params (self s))) /\
  calls (initialize s).2 =
    ((calls s ++ [ClientEnter (mk_stdio_client (mcp_server_params (self s)))])
       ++ [SessionEnter (mk_ClientSession r w)])
      ++ [SessionInitialize (mk_ClientSession r w)].
Proof.
  intros Hce Hse Hsi. init_unfold. destruct (verbose (self s)); simpl.
  all: rewrite Hce; simpl; rewrite Hse; simpl; rewrite Hsi; simpl.
  all: destruct (is_Exception e); simpl; repeat split.
Qed.

(** X24.  A handshake that fails does not leak the provider: after
    [initialize] has raised because the session's initialisation failed,
    [cleanup] exits the session and the client that [initialize] had
    entered, and leaves the chatbot released. *)
Theorem cleanup_after_failed_handshake (s : state) (r w : stream) (e : exn) :
  let client := mk_stdio_client (mcp_server_params (self s)) in
  let session := mk_ClientSession r w in
  let entered := (calls s ++ [ClientEnter client]) ++ [SessionEnter session] in
  client_aenter client (calls s) = Ok (r, w) ->
  session_aenter session (calls s ++ [ClientEnter client]) = Ok tt ->
  session_initialize session entered = Raise e ->
  is_Exception e = true ->
  session_aexit session (entered ++ [SessionInitialize session]) = Ok tt ->
  client_aexit client ((entered ++ [SessionInitialize session]) ++ [SessionExit session])
    = Ok tt ->
  (initialize s).1 = Raise e /\
  (cleanup (initialize s).2).1 = Ok tt /\
  calls (cleanup (initialize s).2).2 =
    entered ++ [SessionInitialize session; SessionExit session; ClientExit client] /\
  released (self (cleanup (initialize s).2).2).
Proof.
  cbv zeta. intros Hce Hse Hsi He Hsx Hcx.
  destruct (initialize_handshake_failure s r w e Hce Hse Hsi) as (Hres & Hs & Hc & Hcalls).
  split; [exact Hres|].
  rewrite <- Hcalls in Hsx, Hcx.
  destruct (cleanup_both_exits (initialize s).2 _ _ Hs Hc Hsx Hcx) as (Hok & Hk).
  split; [exact Hok|]. split.
  - rewrite Hk, Hcalls, <- app_assoc. reflexivity.
  - apply (ChatbotSpec.cleanup_reaches_released session_aexit client_aexit (initialize s).2).
    rewrite <- Hok. by destruct (cleanup (initialize s).2).
Qed.

(** *** Reset *)

(** X25.  After [clear_history] the agent is given the new message
    only: every earlier message, the system message included, is gone
    from what the next turn hands to the agent. *)
Theorem chat_after_clear_history_forgets (s : state) (message : string) (a : react_agent) :
  ready (self s) = true ->
  agent (self s) = Some a ->
  let cleared := (clear_history s).2 in
  let input := if history_is_live then [HumanMessage message; HumanMessage message]
               else [HumanMessage message] in
  calls (chat message cleared).2 = calls s ++ [Ainvoke a input] /\
  exists added,
    memory (self (chat message cleared).2) = HumanMessage message :: added.
Proof.
  intros Hready Hagent. cbv zeta.
  assert (ready (self (clear_history s).2) = true) as Hready'.
  { unfold clear_history, on_self, st_modify. simpl. by destruct (self s). }
  rewrite (ChatbotSpec.chat_ready client_aenter session_aenter session_initialize
             load_mcp_tools create_react_agent ainvoke history_is_live
             (clear_history s).2 message Hready').
  unfold clear_history, on_self, st_modify, agent_input. simpl.
  unfold st_try, mbind, st_mbind, st_bind, st_raise, app_logger, st_modify, mret, st_mret,
    st_ret, external.
  rewrite Hagent. destruct history_is_live; simpl.
  all: match goal with
       | |- context [ainvoke ?x ?input ?k] =>
           destruct (ainvoke x input k) as [reply|e]; simpl
       end.
  all: rewrite ?collect_spec; simpl.
  all: try destruct (is_Exception e); simpl.
  all: split; [done|]; destruct (self s); simpl; by eexists.
Qed.

(** *** The demonstration *)

#[local] Abbreviation main :=
  (main OLLAMA_HOST client_aenter session_aenter session_initialize load_mcp_tools
     create_react_agent ainvoke session_aexit client_aexit history_is_live).
#[local] Abbreviation main_body :=
  (main_body client_aenter session_aenter session_initialize load_mcp_tools
     create_react_agent ainvoke history_is_live).

(** X26.  [main] always reaches [cleanup]: whether it returns or an
    [Exception] leaves it (from [initialize], from a turn, from
    anywhere), the chatbot it created ends released. *)
Theorem main_always_cleans_up (c0 : console) :
  let run := main c0 in
  (run.1 = Ok tt -> released (self (machine run.2))) /\
  (forall e, run.1 = Raise e -> is_Exception e = true -> released (self (machine run.2))).
Proof.
  set (c1 := Console (State (demo_chatbot OLLAMA_HOST) (log (machine c0)) (calls (machine c0)))
               (stdout c0)).
  assert (main c0 = st_finally main_body (on_machine cleanup) c1) as Hmain by reflexivity.
  cbv zeta. rewrite Hmain. unfold st_finally, on_machine. simpl.
  destruct (cleanup (machine (main_body c1).2)) as [[[]|e'] s2] eqn:Hclean; simpl.
  - pose proof (ChatbotSpec.cleanup_reaches_released _ _ _ _ Hclean) as Hrel.
    split; intros; exact Hrel.
  - pose proof (ChatbotSpec.cleanup_raises_no_Exception _ _ _ _ _ Hclean) as He'.
    split; [done|]. intros e [= <-] He. congruence.
Qed.

(** X27.  When [initialize] fails, [main] asks nothing and prints
    nothing: it runs [cleanup] and raises the exception of
    [initialize]. *)
Theorem main_stops_when_initialize_fails (c0 : console) (e : exn) (s1 s2 : state) :
  initialize (State (demo_chatbot OLLAMA_HOST) (log (machine c0)) (calls (machine c0)))
    = (Raise e, s1) ->
  cleanup s1 = (Ok tt, s2) ->
  main c0 = (Raise e, Console s2 (stdout c0)).
Proof.
  intros Hinit Hclean.
  set (c1 := Console (State (demo_chatbot OLLAMA_HOST) (log (machine c0)) (calls (machine c0)))
               (stdout c0)).
  assert (main c0 = st_finally main_body (on_machine cleanup) c1) as -> by reflexivity.
  assert (main_body c1 = (Raise e, Console s1 (stdout c0))) as Hbody.
  { unfold ChatDemo.main_body. unfold mbind at 1, st_mbind at 1, st_bind at 1.
    unfold on_machine at 1. subst c1. simpl. by rewrite Hinit. }
  unfold st_finally, on_machine. rewrite Hbody. simpl. by rewrite Hclean.
Qed.

End Collaborators.

Import ChatScenarios.

Lemma initialize_success_witness :
  exists r w tools a,
    calls (initialize enter_ok session_ok session_ok tools_ok agent_ok (start fresh)).2 =
      [ClientEnter (mk_stdio_client calculator_params);
       SessionEnter (mk_ClientSession r w);
       SessionInitialize (mk_ClientSession r w);
       LoadTools (mk_ClientSession r w);
       CreateAgent (mk_ChatOllama "llama3.2" "http://localhost:11434" (Float "0.7")
                      (Float "0.9")) tools] /\
    agent (self (initialize enter_ok session_ok session_ok tools_ok agent_ok
                   (start fresh)).2) = Some a.
Proof.
  assert (initialize enter_ok session_ok session_ok tools_ok agent_ok (start fresh) =
            (Ok tt,
             (initialize enter_ok session_ok session_ok tools_ok agent_ok (start fresh)).2))
    as Hinit by (vm_compute; reflexivity).
  destruct (initialize_success enter_ok session_ok session_ok tools_ok agent_ok
              (start fresh) _ Hinit)
    as (r & w & tools & a & Hcalls & _ & _ & _ & _ & _ & _ & Hagent & _).
  exists r, w, tools, a. split; [exact Hcalls | exact Hagent].
Defined.

Lemma chat_initializes_lazily_witness :
  chat enter_fails session_ok session_ok tools_ok agent_ok answers_96 false "hello"
    (start fresh)
  = (Raise (Exn (ForeignError "FileNotFoundError")
              "[Errno 2] No such file or directory: 'uvx'"),
     (initialize enter_fails session_ok session_ok tools_ok agent_ok (start fresh)).2).
Proof.
  destruct (chat_initializes_lazily enter_fails session_ok session_ok tools_ok agent_ok
              answers_96 false (start fresh) "hello" eq_refl) as [Hraise _].
  apply Hraise. reflexivity.
Defined.

Lemma chat_keeps_answer_in_order_witness :
  let run := chat enter_ok session_ok session_ok tools_ok agent_ok answers_with_tool false
               "what's (3 + 5) x 12?" (start connected) in
  run.1 = Ok "The result is 96." /\
  memory (self run.2) =
    [HumanMessage "what's (3 + 5) x 12?";
     BaseMessage Tool "96" (Some "call_1") [];
     AIMessage "The result is 96."].
Proof.
  destruct (chat_keeps_answer_in_order enter_ok session_ok session_ok tools_ok agent_ok
              answers_with_tool false (start connected) "what's (3 + 5) x 12?"
              (ReactAgent 0)
              (Some [BaseMessage AI "" None
                       [ToolRequest "calculate" [("expression", VStr "(3+5)*12")] "call_1"];
                     BaseMessage Tool "96" (Some "call_1") [];
                     AIMessage "The result is 96."])
              eq_refl eq_refl eq_refl) as (Hres & Hmem & _).
  split; [exact Hres | exact Hmem].
Defined.

Lemma cleanup_skips_client_after_failed_exit_witness :
  calls (cleanup session_exit_fails client_ok (start connected)).2
    = [SessionExit (mk_ClientSession (Stream 0) (Stream 1))] /\
  mcp_client (self (cleanup session_exit_fails client_ok (start connected)).2)
    = Some (mk_stdio_client calculator_params).
Proof.
  destruct (cleanup_skips_client_after_failed_exit session_exit_fails client_ok
              (start connected) (mk_ClientSession (Stream 0) (Stream 1))
              (Exn (ForeignError "RuntimeError")
                 "Attempted to exit cancel scope in a different task")
              eq_refl eq_refl eq_refl) as (_ & Hcalls & _ & _ & Hclient).
  split; [exact Hcalls | exact Hclient].
Defined.

Lemma cleanup_after_failed_handshake_witness :
  calls (cleanup session_ok client_ok
           (initialize enter_ok session_ok handshake_fails tools_ok agent_ok
              (start fresh)).2).2
  = [ClientEnter (mk_stdio_client calculator_params);
     SessionEnter (mk_ClientSession (Stream 0) (Stream 1));
     SessionInitialize (mk_ClientSession (Stream 0) (Stream 1));
     SessionExit (mk_ClientSession (Stream 0) (Stream 1));
     ClientExit (mk_stdio_client calculator_params)].
Proof.
  destruct (cleanup_after_failed_handshake enter_ok session_ok handshake_fails tools_ok
              agent_ok session_ok client_ok (start fresh) (Stream 0) (Stream 1)
              (Exn (ForeignError "McpError") "Connection closed")
              eq_refl eq_refl eq_refl eq_refl eq_refl eq_refl) as (_ & _ & Hcalls & _).
  exact Hcalls.
Defined.

Lemma chat_after_clear_history_forgets_witness :
  calls (chat enter_ok session_ok session_ok tools_ok agent_ok answers_96 false "again"
           (clear_history
              (State (set_memory [SystemMessage "Be brief."; HumanMessage "hello"] connected)
                 [] [])).2).2
  = [Ainvoke (ReactAgent 0) [HumanMessage "again"]].
Proof.
  destruct (chat_after_clear_history_forgets enter_ok session_ok session_ok tools_ok
              agent_ok answers_96 false
              (State (set_memory [SystemMessage "Be brief."; HumanMessage "hello"] connected)
                 [] [])
              "again" (ReactAgent 0) eq_refl eq_refl) as [Hcalls _].
  exact Hcalls.
Defined.

Lemma main_stops_when_initialize_fails_witness :
  (main None enter_fails session_ok session_ok tools_ok agent_ok answers_96 session_ok
     client_ok false (Console (State fresh [] []) [])).1
  = Raise (Exn (ForeignError "FileNotFoundError")
             "[Errno 2] No such file or directory: 'uvx'") /\
  stdout (main None enter_fails session_ok session_ok tools_ok agent_ok answers_96 session_ok
            client_ok false (Console (State fresh [] []) [])).2 = [].
Proof.
  rewrite (main_stops_when_initialize_fails None enter_fails session_ok session_ok tools_ok
             agent_ok answers_96 session_ok client_ok false (Console (State fresh [] []) [])
             (Exn (ForeignError "FileNotFoundError")
                "[Errno 2] No such file or directory: 'uvx'")
             (initialize enter_fails session_ok session_ok tools_ok agent_ok
                (State (demo_chatbot None) [] [])).2
             (cleanup session_ok client_ok
                (initialize enter_fails session_ok session_ok tools_ok agent_ok
                   (State (demo_chatbot None) [] [])).2).2).
  - split; reflexivity.
  - vm_compute. reflexivity.
  - vm_compute. reflexivity.
Defined.

End ChatExtras.
